(** * analisis_ventas: one-way ANOVA over per-store sales sheets

    Shallow embedding of [main.py] ([analyze_sales_data]) and [anova.py]
    ([analisis_anova_completo]).

    Both scripts are straight-line pipelines around pandas, scipy and
    statsmodels.  What the scripts themselves decide (guards, early returns,
    the try/except around loading, the label matching of the extremes
    comparison) is written out below; what the libraries compute (reading a
    workbook, Levene, Shapiro-Wilk, the OLS fit, the ANOVA table, Tukey HSD,
    Student quantiles, square roots, the plots) is taken from a record [Libs] of library
    functions, each returning either an exception or its value.

    Python floats are modelled as rationals plus NaN; rounding and the
    infinities are not represented.  Console lines are recorded in a trace,
    f-strings as their template together with the values they interpolate;
    the escapes of the source text (backslash n) are kept as written. *)

From Stdlib Require Import ZArith QArith List String Bool Lia Lqa Sorted.
Import ListNotations.

Open Scope string_scope.
Open Scope Z_scope.
Open Scope list_scope.

(* ------------------------------------------------------------------ *)
(** * Floats *)

Module PyFloat.

(** A float is a rational or NaN ([None]): rounding is not modelled, so only
    comparisons and orderings of results are stated of the program, never
    exact identities between results of different computations. *)
Definition num := option Q.

Definition NaN : num := None.

Definition lift2 (f : Q -> Q -> Q) (a b : num) : num :=
  match a, b with
  | Some x, Some y => Some (f x y)
  | _, _ => None
  end.

Definition add := lift2 Qplus.
Definition sub := lift2 Qminus.
Definition mul := lift2 Qmult.

(** Division by zero is mapped to NaN. *)
Definition div (a b : num) : num :=
  match a, b with
  | Some x, Some y => if Qeq_bool y 0 then None else Some (x / y)%Q
  | _, _ => None
  end.

(** [a < b]; every comparison with NaN is [False]. *)
Definition lt (a b : num) : bool :=
  match a, b with
  | Some x, Some y => match (x ?= y)%Q with Lt => true | _ => false end
  | _, _ => false
  end.

(** [a > b]. *)
Definition gt (a b : num) : bool := lt b a.

(** [pd.isna]. *)
Definition isna (a : num) : bool :=
  match a with None => true | Some _ => false end.

End PyFloat.

Import PyFloat.

(* ------------------------------------------------------------------ *)
(** * Data *)

Record date := { d_year : Z; d_month : Z; d_day : Z }.

(** A pandas monthly period ([to_period('M')]). *)
Record period := { p_year : Z; p_month : Z }.

(** A spreadsheet cell as read by [pd.read_excel]. *)
Inductive cell :=
| CNum (q : Q)
| CDate (d : date)
| CText (s : string)
| CNull.

Definition isnull (c : cell) : bool :=
  match c with CNull => true | _ => false end.

(** A sheet as a data frame: header and rows (each row one cell per column). *)
Record raw_frame := { columns : list string; rows : list (list cell) }.

Inductive exn :=
| FileNotFoundError
| ValueError
| IndexError
| KeyError
| TypeError
| OtherException.

(** An opened workbook: its sheets in order, each with what reading it gives. *)
Definition workbook := list (string * (exn + raw_frame)).

Definition sheet_names (xls : workbook) : list string := map fst xls.

(** A row of the combined table: columns Fecha, Ventas, Supermercado. *)
Record sale := { Fecha : cell; Ventas : cell; Supermercado : string }.

(** A row of [monthly_sales]. *)
Record month_row := {
  AñoMes : period;
  Media_Ventas : num;
  Desviacion_Estandar : num;
  N_Observaciones : Z
}.

(** A row of the ANOVA table, indexed by its term. *)
Record anova_row := { sum_sq : num; df : num; F : num; PR_F : num }.

Definition anova_table := list (string * anova_row).

(** A row of the Tukey HSD result table. *)
Record tukey_row := {
  group1 : string;
  group2 : string;
  meandiff : num;
  p_adj : num;
  lower : num;
  upper : num;
  reject : bool
}.

Definition tukey_table := list tukey_row.

(** A fitted OLS model: the data it was fitted on and its residuals. *)
Record ols_model := { model_data : list sale; resid : list num }.

(* ------------------------------------------------------------------ *)
(** * Library functions *)

(** The calls of matplotlib and seaborn the plots are made of. *)
Inductive plotcall :=
| Plt_figure
| Sns_kdeplot (data : list sale)
| Sns_boxplot (data : list sale)
| Plt_title (s : string)
| Plt_savefig (file : string)
| Plt_close.

Record Libs := {
  (** [pd.ExcelFile(path)] *)
  ExcelFile : string -> exn + workbook;
  (** [pd.to_datetime], [dt.to_period('M')] and [groupby('AñoMes')['Ventas']]:
      the months in order, each with its non-missing sales values. *)
  group_by_month : list (cell * cell) -> exn + list (period * list Q);
  (** [np.sqrt] *)
  np_sqrt : Q -> Q;
  (** [stats.t.ppf(q, df)] *)
  t_ppf : Q -> Z -> Q;
  (** [stats.levene] on the samples: statistic and p-value *)
  levene : list (list cell) -> exn + (num * num);
  (** [ols('Ventas ~ C(Supermercado)', data=df).fit()] *)
  ols_fit : list sale -> exn + ols_model;
  (** [stats.shapiro(resid)]: statistic and p-value *)
  shapiro : list num -> exn + (num * num);
  (** [sm.stats.anova_lm(model, typ=2)] *)
  anova_lm : ols_model -> exn + anova_table;
  (** [pairwise_tukeyhsd(endog=df['Ventas'], groups=df['Supermercado'], alpha)] *)
  pairwise_tukeyhsd : list sale -> num -> exn + tukey_table;
  (** [plt.figure], [sns.kdeplot], [sns.boxplot], [plt.title], [plt.savefig]
      and [plt.close] *)
  pyplot : plotcall -> exn + unit
}.

(* ------------------------------------------------------------------ *)
(** * Effects: console, library calls, files, exceptions *)

Inductive arg :=
| AStr (s : string)
| ANum (x : num)
| AInt (n : Z)
| APeriod (p : period)
| AExn (e : exn).

Inductive obj :=
| OMonthly (t : list month_row)
| OFrame (t : list sale)
| OAnova (t : anova_table)
| OSeries (t : list (string * num))
| OTukey (t : tukey_table).

Inductive libcall :=
| Levene
| OlsFit
| Shapiro
| AnovaLm
| TukeyHSD
| KdePlot
| BoxPlot.

Inductive event :=
| EPrint (s : string)
| EPrintF (template : string) (args : list arg)
| EPrintObj (o : obj)
| ECall (f : libcall)
| ESaveFig (file : string).

(** What a statement does besides its trace: go on with a value, leave the
    function by [return], or raise. *)
Inductive result (A : Type) :=
| Ok (a : A)
| Ret
| Raise (e : exn).

Arguments Ok {A} a.
Arguments Ret {A}.
Arguments Raise {A} e.

Definition M (A : Type) : Type := list event * result A.

Definition ret {A} (a : A) : M A := ([], Ok a).

Definition bind {A B} (m : M A) (k : A -> M B) : M B :=
  match m with
  | (t, Ok a) => let '(t', r) := k a in (t ++ t', r)
  | (t, Ret) => (t, Ret)
  | (t, Raise e) => (t, Raise e)
  end.

Notation "x <- m ;; k" := (bind m (fun x => k))
  (at level 61, m at next level, right associativity).
Notation "m ;; k" := (bind m (fun _ => k))
  (at level 61, right associativity).

Definition emit (e : event) : M unit := ([e], Ok tt).
Definition print (s : string) : M unit := emit (EPrint s).
Definition printf (s : string) (args : list arg) : M unit := emit (EPrintF s args).
Definition print_obj (o : obj) : M unit := emit (EPrintObj o).
Definition call (f : libcall) : M unit := emit (ECall f).
Definition raise {A} (e : exn) : M A := ([], Raise e).
Definition return_ {A} : M A := ([], Ret).

(** The result of a library function. *)
Definition lib {A} (r : exn + A) : M A :=
  match r with inl e => raise e | inr a => ret a end.

(** [try: body except Exception as e: handler e]. *)
Definition try_except {A} (body : M A) (handler : exn -> M A) : M A :=
  match body with
  | (t, Raise e) => let '(t', r) := handler e in (t ++ t', r)
  | other => other
  end.

(** [for x in xs: body x]. *)
Fixpoint for_each {A} (xs : list A) (body : A -> M unit) : M unit :=
  match xs with
  | [] => ret tt
  | x :: xs' => body x ;; for_each xs' body
  end.

(** How a call of a Python function ends. *)
Inductive outcome :=
| Returned
| Raised (e : exn).

Definition run_function (m : M unit) : list event * outcome :=
  match m with
  | (t, Ok _) => (t, Returned)
  | (t, Ret) => (t, Returned)
  | (t, Raise e) => (t, Raised e)
  end.

(* ------------------------------------------------------------------ *)
(** * The pandas operations the scripts use *)

Module Pandas.

(** [pd.read_excel(xls, sheet_name=name)] *)
Definition read_excel (xls : workbook) (name : string) : M raw_frame :=
  match find (fun s => String.eqb (fst s) name) xls with
  | Some (_, r) => lib r
  | None => raise ValueError
  end.

(** [df.iloc[:, [0, 1]]]: out of range with fewer than two columns. *)
Definition iloc_0_1 (df : raw_frame) : M raw_frame :=
  if (List.length (columns df) <? 2)%nat then raise IndexError
  else ret {| columns := firstn 2 (columns df);
              rows := map (firstn 2) (rows df) |}.

(** [df.columns = ['Fecha', 'Ventas']]: a length mismatch unless the frame
    has exactly two columns. *)
Definition set_columns_Fecha_Ventas (df : raw_frame) : M (list (cell * cell)) :=
  if (List.length (columns df) =? 2)%nat
  then ret (map (fun r => (nth 0 r CNull, nth 1 r CNull)) (rows df))
  else raise ValueError.

(** [df['Supermercado'] = sheet_name] *)
Definition set_Supermercado (sheet_name : string) (df : list (cell * cell))
  : list sale :=
  map (fun r => {| Fecha := fst r; Ventas := snd r;
                   Supermercado := sheet_name |}) df.

(** [pd.concat(frames, ignore_index=True)]: no objects to concatenate when
    the list is empty. *)
Definition concat (frames : list (list sale)) : M (list sale) :=
  match frames with
  | [] => raise ValueError
  | _ => ret (List.concat frames)
  end.

(** [df.dropna(subset=['Ventas'])] *)
Definition dropna_Ventas (df : list sale) : list sale :=
  filter (fun r => negb (isnull (Ventas r))) df.

(** [df['Ventas'].isnull().any()] *)
Definition any_null_Ventas (df : list sale) : bool :=
  existsb (fun r => isnull (Ventas r)) df.

(** [df.empty] *)
Definition empty {A} (df : list A) : bool :=
  match df with [] => true | _ => false end.

(** [series.unique()]: the distinct values in order of appearance. *)
Fixpoint unique (xs : list string) : list string :=
  match xs with
  | [] => []
  | x :: xs' => x :: filter (fun y => negb (String.eqb y x)) (unique xs')
  end.

(** [len(df['Supermercado'].unique())] *)
Definition n_stores (df : list sale) : nat :=
  List.length (unique (map Supermercado df)).

(** [df.head()] *)
Definition head (df : list sale) : list sale := firstn 5 df.

(** Group keys come out sorted. *)
Fixpoint insert_label (x : string) (xs : list string) : list string :=
  match xs with
  | [] => [x]
  | y :: ys => if String.leb x y then x :: y :: ys else y :: insert_label x ys
  end.

Definition sort_labels (xs : list string) : list string :=
  fold_right insert_label [] xs.

(** [df.groupby('Supermercado')]: the sorted labels, each with the Ventas
    cells of its rows. *)
Definition groupby_Supermercado (df : list sale) : list (string * list cell) :=
  map (fun g => (g, map Ventas (filter (fun r => String.eqb (Supermercado r) g) df)))
      (sort_labels (unique (map Supermercado df))).

(** The numeric values of a column, missing ones skipped; text and dates
    cannot be averaged. *)
Fixpoint numeric (cs : list cell) : exn + list Q :=
  match cs with
  | [] => inr []
  | CNum q :: cs' => match numeric cs' with inr qs => inr (q :: qs) | inl e => inl e end
  | CNull :: cs' => numeric cs'
  | _ :: _ => inl TypeError
  end.

Definition sum (vs : list Q) : Q := fold_right Qplus 0%Q vs.

Definition count (vs : list Q) : Z := Z.of_nat (List.length vs).

(** [mean]: NaN for an empty group. *)
Definition mean (vs : list Q) : num :=
  match vs with
  | [] => NaN
  | _ => Some (sum vs / inject_Z (count vs))%Q
  end.

(** [std] (sample standard deviation, ddof = 1): NaN below two values. *)
Definition std (L : Libs) (vs : list Q) : num :=
  match mean vs with
  | Some m =>
      if count vs <? 2 then NaN
      else Some (np_sqrt L (sum (map (fun x => (x - m) * (x - m)) vs)
                            / inject_Z (count vs - 1)))%Q
  | None => NaN
  end.

(** [groupby('AñoMes')['Ventas'].agg(['mean', 'std', 'count'])], one row per
    month. *)
Definition agg (L : Libs) (g : period * list Q) : month_row :=
  {| AñoMes := fst g;
     Media_Ventas := mean (snd g);
     Desviacion_Estandar := std L (snd g);
     N_Observaciones := count (snd g) |}.

Fixpoint group_means (gs : list (string * list cell)) : exn + list (string * num) :=
  match gs with
  | [] => inr []
  | (g, cs) :: gs' =>
      match numeric cs, group_means gs' with
      | inr vs, inr ms => inr ((g, mean vs) :: ms)
      | inl e, _ => inl e
      | _, inl e => inl e
      end
  end.

(** Whether [x] stays in front of [y] in descending order, NaN last. *)
Definition before_desc (x y : string * num) : bool :=
  match snd x, snd y with
  | Some a, Some b => Qle_bool b a
  | Some _, None => true
  | None, Some _ => false
  | None, None => true
  end.

Fixpoint insert_desc (x : string * num) (xs : list (string * num)) :=
  match xs with
  | [] => [x]
  | y :: ys => if before_desc x y then x :: y :: ys else y :: insert_desc x ys
  end.

(** [series.sort_values(ascending=False)]; pandas leaves the order of equal
    values open, here they keep their order. *)
Definition sort_values_desc (s : list (string * num)) : list (string * num) :=
  fold_right insert_desc [] s.

End Pandas.

Import Pandas.

Fixpoint dashes (n : nat) : string :=
  match n with
  | O => EmptyString
  | S n' => ("-" ++ dashes n')%string
  end.

(** [alpha = 0.05] *)
Definition alpha : num := Some (5 # 100)%Q.

(* ------------------------------------------------------------------ *)
(** * main.py *)

Module Main_py.

(** What the loop body computes for a month when it takes the first branch. *)
Record intervals := {
  se : num;
  t_crit_95 : num;
  lower_95 : num;
  upper_95 : num;
  t_crit_99 : num;
  lower_99 : num;
  upper_99 : num
}.

(** Lines 45-54: the guard of the loop body and the two intervals. *)
Definition confidence_intervals (L : Libs) (row : month_row) : option intervals :=
  let media_ventas := Media_Ventas row in
  let desviacion_estandar := Desviacion_Estandar row in
  let n_observaciones := N_Observaciones row in
  if (1 <? n_observaciones) && negb (isna desviacion_estandar) then
    let se := div desviacion_estandar
                  (Some (np_sqrt L (inject_Z n_observaciones))) in
    let t_crit_95 := Some (t_ppf L (975 # 1000) (n_observaciones - 1)) in
    let lower_95 := sub media_ventas (mul t_crit_95 se) in
    let upper_95 := add media_ventas (mul t_crit_95 se) in
    let t_crit_99 := Some (t_ppf L (995 # 1000) (n_observaciones - 1)) in
    let lower_99 := sub media_ventas (mul t_crit_99 se) in
    let upper_99 := add media_ventas (mul t_crit_99 se) in
    Some {| se := se;
            t_crit_95 := t_crit_95; lower_95 := lower_95; upper_95 := upper_95;
            t_crit_99 := t_crit_99; lower_99 := lower_99; upper_99 := upper_99 |}
  else None.

(** Lines 39-66: the body of the loop over [monthly_sales]. *)
Definition report_month (L : Libs) (row : month_row) : M unit :=
  let mes_año := AñoMes row in
  let media_ventas := Media_Ventas row in
  let desviacion_estandar := Desviacion_Estandar row in
  let n_observaciones := N_Observaciones row in
  match confidence_intervals L row with
  | Some ci =>
      printf "Mes: {mes_año}" [APeriod mes_año] ;;
      printf "  Ventas Promedio: ${media_ventas:,.2f}" [ANum media_ventas] ;;
      printf "  Nº de Días de Venta: {n_observaciones}" [AInt n_observaciones] ;;
      printf "  Desviación Estándar (Ventas Diarias): ${desviacion_estandar:,.2f}"
             [ANum desviacion_estandar] ;;
      printf "  IC 95%: [${lower_95:,.2f}, ${upper_95:,.2f}]"
             [ANum (lower_95 ci); ANum (upper_95 ci)] ;;
      printf "  IC 99%: [${lower_99:,.2f}, ${upper_99:,.2f}]"
             [ANum (lower_99 ci); ANum (upper_99 ci)] ;;
      print (dashes 30)
  | None =>
      printf "Mes: {mes_año} - No hay suficientes datos ({n_observaciones} observaciones) o la desviación estándar es nula para calcular el IC. Se necesitan al menos 2 días de venta por mes."
             [APeriod mes_año; AInt n_observaciones] ;;
      print (dashes 30)
  end.

(** Lines 20-71: section 1, the monthly intervals of the reference store. *)
Definition section_1 (L : Libs) (xls : workbook) (santa_ana_sheet_name : string)
  : M unit :=
  print "--- 1. Intervalos de Confianza Empíricos para 'Santa Ana' ---" ;;
  if existsb (String.eqb santa_ana_sheet_name) (sheet_names xls) then
    df_santa_ana <- read_excel xls santa_ana_sheet_name ;;
    df_santa_ana <- set_columns_Fecha_Ventas df_santa_ana ;;
    groups <- lib (group_by_month L df_santa_ana) ;;
    let monthly_sales := map (agg L) groups in
    print "\nEstadísticas mensuales de ventas (agrupadas por mes):" ;;
    print_obj (OMonthly monthly_sales) ;;
    print (dashes 50) ;;
    for_each monthly_sales (report_month L) ;;
    print "\n"
  else
    printf "La hoja '{santa_ana_sheet_name}' no se encontró en el archivo."
           [AStr santa_ana_sheet_name] ;;
    print "\n".

(** Lines 76-80: one frame per sheet. *)
Fixpoint read_sheets (xls : workbook) (names : list string) : M (list (list sale)) :=
  match names with
  | [] => ret []
  | sheet_name :: names' =>
      df_temp <- read_excel xls sheet_name ;;
      df_temp <- set_columns_Fecha_Ventas df_temp ;;
      all_sales_data <- read_sheets xls names' ;;
      ret (set_Supermercado sheet_name df_temp :: all_sales_data)
  end.

(** Lines 75-92: the combined table the rest of the function works on. *)
Definition combined_table (xls : workbook) : M (list sale) :=
  all_sales_data <- read_sheets xls (sheet_names xls) ;;
  df_all_sales <- concat all_sales_data ;;
  if (n_stores df_all_sales <? 2)%nat then
    print "Se necesitan al menos dos supermercados para realizar ANOVA." ;;
    ret df_all_sales
  else if any_null_Ventas df_all_sales then
    print "Advertencia: Se encontraron valores nulos en las ventas. Eliminándolos para ANOVA." ;;
    let df_all_sales := dropna_Ventas df_all_sales in
    if empty df_all_sales then
      print "No quedan datos después de eliminar los nulos. No se puede realizar ANOVA." ;;
      return_
    else ret df_all_sales
  else ret df_all_sales.

(** Lines 105-109: the p-value of the store factor.  The fallback
    [anova_table['PR(>F)'][0]] is read by position, as pandas before 3.0 does
    for a label index (pandas 3 raises KeyError there); it is not reached when
    the table has the factor. *)
Definition p_value_of (anova_table : anova_table) : M num :=
  match find (fun r => String.eqb (fst r) "C(Supermercado)") anova_table with
  | Some r => ret (PR_F (snd r))
  | None =>
      match anova_table with
      | r :: _ => ret (PR_F (snd r))
      | [] => raise IndexError
      end
  end.

(** Lines 152-156: the rows of the Tukey table on the two extreme stores. *)
Definition specific_comparison (tukey_df : tukey_table)
           (supermarket_highest_sales supermarket_lowest_sales : string)
  : tukey_table :=
  filter (fun r =>
            (String.eqb (group1 r) supermarket_highest_sales
             && String.eqb (group2 r) supermarket_lowest_sales)
            || (String.eqb (group1 r) supermarket_lowest_sales
                && String.eqb (group2 r) supermarket_highest_sales))
         tukey_df.

(** Lines 160-165: the mean difference that is printed. *)
Definition reported_mean_diff (first : tukey_row)
           (supermarket_lowest_sales : string) : num :=
  let mean_diff_tukey := meandiff first in
  if String.eqb (group1 first) supermarket_lowest_sales
  then mul mean_diff_tukey (Some (-1 # 1)%Q)
  else mean_diff_tukey.

(** Lines 140-186: the post-hoc part of section 3. *)
Definition post_hoc (L : Libs) (df_all_sales : list sale)
           (supermarket_highest_sales supermarket_lowest_sales : string)
  : M unit :=
  print "\nRealizando prueba de Tukey HSD (Post-hoc ANOVA) para comparaciones pareadas:" ;;
  call TukeyHSD ;;
  tukey_result <- lib (pairwise_tukeyhsd L df_all_sales (Some (5 # 100)%Q)) ;;
  print_obj (OTukey tukey_result) ;;
  let tukey_df := tukey_result in
  found_comparison <-
    match specific_comparison tukey_df supermarket_highest_sales
                              supermarket_lowest_sales with
    | first :: _ =>
        let p_value_tukey := p_adj first in
        printf "\nComparación específica entre '{supermarket_highest_sales}' y '{supermarket_lowest_sales}':"
               [AStr supermarket_highest_sales; AStr supermarket_lowest_sales] ;;
        printf "  Diferencia de medias: ${mean_diff_tukey:,.2f}"
               [ANum (reported_mean_diff first supermarket_lowest_sales)] ;;
        printf "  P-value (Tukey HSD): {p_value_tukey:.4f}" [ANum p_value_tukey] ;;
        (if lt p_value_tukey alpha then
           print "La diferencia entre las ventas de la tienda con mayor y menor promedio es estadísticamente significativa." ;;
           printf "Esto sugiere que '{supermarket_lowest_sales}' realmente tiene ventas peores y podría necesitar más atención."
                  [AStr supermarket_lowest_sales]
         else
           print "La diferencia entre las ventas de la tienda con mayor y menor promedio NO es estadísticamente significativa." ;;
           print "Las diferencias observadas podrían ser debidas al azar.") ;;
        ret true
    | [] => ret false
    end ;;
  if negb found_comparison then
    printf "No se encontró una comparación directa entre '{supermarket_highest_sales}' y '{supermarket_lowest_sales}' en los resultados de Tukey HSD."
           [AStr supermarket_highest_sales; AStr supermarket_lowest_sales] ;;
    print "Esto es inusual si ambas tiendas están en el dataset. Verifique los nombres."
  else ret tt.

(** Lines 123-189: section 3, the stores with the highest and lowest mean. *)
Definition section_3 (L : Libs) (df_all_sales : list sale) (p_value_anova : num)
  : M unit :=
  print "--- 3. Comparación de la Tienda con Mayor y Menor Promedio de Ventas ---" ;;
  (if negb (empty df_all_sales) then
     means <- lib (group_means (groupby_Supermercado df_all_sales)) ;;
     let avg_sales_by_supermarket := sort_values_desc means in
     print "Promedio de ventas por supermercado:" ;;
     print_obj (OSeries avg_sales_by_supermarket) ;;
     match avg_sales_by_supermarket with
     | [] => raise IndexError
     | highest :: _ =>
         let lowest := last avg_sales_by_supermarket highest in
         let supermarket_highest_sales := fst highest in
         let supermarket_lowest_sales := fst lowest in
         printf "\nTienda con mayor promedio de ventas: '{supermarket_highest_sales}' (${avg_sales_by_supermarket.iloc[0]:,.2f})"
                [AStr supermarket_highest_sales; ANum (snd highest)] ;;
         printf "Tienda con menor promedio de ventas: '{supermarket_lowest_sales}' (${avg_sales_by_supermarket.iloc[-1]:,.2f})"
                [AStr supermarket_lowest_sales; ANum (snd lowest)] ;;
         if lt p_value_anova alpha then
           post_hoc L df_all_sales supermarket_highest_sales supermarket_lowest_sales
         else
           print "\nEl ANOVA no encontró diferencias significativas, por lo que una prueba post-hoc directa entre las tiendas con mayor y menor promedio no es estadísticamente necesaria para confirmar una diferencia global. Las diferencias observadas son probablemente debidas al azar."
     end
   else print "No hay datos disponibles para realizar la comparación de tiendas.") ;;
  print "\n".

(** Lines 93-121: the ANOVA on the combined table. *)
Definition anova (L : Libs) (df_all_sales : list sale) : M num :=
  printf "Datos combinados de ventas de {len(df_all_sales['Supermercado'].unique())} supermercados."
         [AInt (Z.of_nat (n_stores df_all_sales))] ;;
  print "Primeras filas de datos combinados:" ;;
  print_obj (OFrame (head df_all_sales)) ;;
  call OlsFit ;;
  model <- lib (ols_fit L df_all_sales) ;;
  call AnovaLm ;;
  anova_table <- lib (anova_lm L model) ;;
  print "Tabla ANOVA:" ;;
  print_obj (OAnova anova_table) ;;
  p_value_anova <- p_value_of anova_table ;;
  (if lt p_value_anova alpha then
     printf "\nCon un nivel de significancia del {alpha*100}%, rechazamos la hipótesis nula."
            [ANum (mul alpha (Some (100 # 1)%Q))] ;;
     print "Hay evidencia estadística de que las ventas esperadas de al menos un supermercado son diferentes." ;;
     print "Esto sugiere que no todas las tiendas se comportan de la misma manera en términos de ventas."
   else
     printf "\nCon un nivel de significancia del {alpha*100}%, no rechazamos la hipótesis nula."
            [ANum (mul alpha (Some (100 # 1)%Q))] ;;
     print "No hay evidencia estadística de que las ventas esperadas de los supermercados sean diferentes." ;;
     print "Las ventas promedio de los supermercados son estadísticamente similares.") ;;
  print "\n" ;;
  ret p_value_anova.

(** Lines 73-189: sections 2 and 3. *)
Definition sections_2_3 (L : Libs) (xls : workbook) : M unit :=
  print "--- 2. Pruebas ANOVA para Comparar Ventas de Todas las Tiendas ---" ;;
  df_all_sales <- combined_table xls ;;
  p_value_anova <- anova L df_all_sales ;;
  section_3 L df_all_sales p_value_anova.

Definition body (L : Libs) (file_path santa_ana_sheet_name : string) : M unit :=
  xls <- lib (ExcelFile L file_path) ;;
  section_1 L xls santa_ana_sheet_name ;;
  sections_2_3 L xls.

Definition analyze_sales_data (L : Libs) (file_path santa_ana_sheet_name : string)
  : list event * outcome :=
  run_function (body L file_path santa_ana_sheet_name).

End Main_py.

(* ------------------------------------------------------------------ *)
(** * anova.py *)

Module Anova_py.

(** Lines 22-27: one frame per sheet, its first two columns only. *)
Fixpoint read_sheets (xls : workbook) (names : list string) : M (list (list sale)) :=
  match names with
  | [] => ret []
  | sheet_name :: names' =>
      df_temp <- read_excel xls sheet_name ;;
      df_temp <- iloc_0_1 df_temp ;;
      df_temp <- set_columns_Fecha_Ventas df_temp ;;
      all_sales_data <- read_sheets xls names' ;;
      ret (set_Supermercado sheet_name df_temp :: all_sales_data)
  end.

(** Lines 18-30: the body of the [try]. *)
Definition load (L : Libs) (ruta_archivo_excel : string) : M (list sale) :=
  print "--- 0. CARGANDO Y PREPARANDO DATOS ---" ;;
  xls <- lib (ExcelFile L ruta_archivo_excel) ;;
  all_sales_data <- read_sheets xls (sheet_names xls) ;;
  df_all_sales <- concat all_sales_data ;;
  let df_all_sales := dropna_Ventas df_all_sales in
  print "Datos cargados correctamente.\n" ;;
  ret df_all_sales.

(** Lines 32-40: the two handlers. *)
Definition on_error (ruta_archivo_excel : string) (e : exn) : M (list sale) :=
  match e with
  | FileNotFoundError =>
      printf "ERROR: No se encontró el archivo en la ruta '{ruta_archivo_excel}'."
             [AStr ruta_archivo_excel] ;;
      print "Por favor, asegúrate de que el archivo ha sido subido y la ruta es correcta." ;;
      return_
  | _ =>
      printf "Ocurrió un error inesperado al cargar los datos: {e}" [AExn e] ;;
      return_
  end.

(** Lines 49-70: the assumption checks; the fitted model is used again by
    the ANOVA table. *)
Definition check_assumptions (L : Libs) (df_all_sales : list sale) : M ols_model :=
  print "--- 2. VERIFICACIÓN DE REQUISITOS DEL ANOVA ---" ;;
  print "a) Independencia: Se asume que las observaciones son independientes por el diseño del estudio." ;;
  print "\nb) Prueba de Homogeneidad de Varianzas (Levene):" ;;
  let samples := map snd (groupby_Supermercado df_all_sales) in
  call Levene ;;
  levene_result <- lib (levene L samples) ;;
  let levene_p := snd levene_result in
  printf "   p-valor = {levene_p:.4f}" [ANum levene_p] ;;
  (if gt levene_p alpha then
     print "   Conclusión: Se cumple el requisito de homogeneidad de varianzas. "
   else
     print "   Conclusión: NO se cumple el requisito de homogeneidad de varianzas. ") ;;
  print "\nc) Prueba de Normalidad de los Residuos (Shapiro-Wilk):" ;;
  call OlsFit ;;
  model <- lib (ols_fit L df_all_sales) ;;
  call Shapiro ;;
  shapiro_result <- lib (shapiro L (resid model)) ;;
  let shapiro_p := snd shapiro_result in
  printf "   p-valor = {shapiro_p:.4f}" [ANum shapiro_p] ;;
  (if gt shapiro_p alpha then
     print "   Conclusión: Se cumple el requisito de normalidad. "
   else
     print "   Conclusión: NO se cumple el requisito de normalidad. ") ;;
  ret model.

(** Lines 72-92: the two plots.  Each call of matplotlib or seaborn may
    raise; a figure counts as saved when [plt.savefig] has returned. *)
Definition plots (L : Libs) (df_all_sales : list sale) : M unit :=
  print "\n--- 3. GENERANDO GRÁFICOS DE LAS DISTRIBUCIONES ---" ;;
  lib (pyplot L Plt_figure) ;;
  call KdePlot ;;
  lib (pyplot L (Sns_kdeplot df_all_sales)) ;;
  lib (pyplot L (Plt_title "Distribución de Ventas por Supermercado (Gráfico de Densidad)")) ;;
  lib (pyplot L (Plt_savefig "grafico_densidad_ventas.png")) ;;
  emit (ESaveFig "grafico_densidad_ventas.png") ;;
  lib (pyplot L Plt_close) ;;
  lib (pyplot L Plt_figure) ;;
  call BoxPlot ;;
  lib (pyplot L (Sns_boxplot df_all_sales)) ;;
  lib (pyplot L (Plt_title "Comparación de Ventas por Supermercado (Gráfico de Cajas)")) ;;
  lib (pyplot L (Plt_savefig "boxplot_ventas.png")) ;;
  emit (ESaveFig "boxplot_ventas.png") ;;
  lib (pyplot L Plt_close) ;;
  print "Gráficos 'grafico_densidad_ventas.png' y 'boxplot_ventas.png' guardados." ;;
  print "Estos gráficos ayudan a visualizar las diferencias y la forma de los datos," ;;
  print "especialmente útil si no se cumplió el supuesto de normalidad.\n".

(** Line 99: [anova_table.loc['C(Supermercado)', 'PR(>F)']]. *)
Definition p_value_of (anova_table : anova_table) : M num :=
  match find (fun r => String.eqb (fst r) "C(Supermercado)") anova_table with
  | Some r => ret (PR_F (snd r))
  | None => raise KeyError
  end.

(** Lines 94-111: the ANOVA table and the decision. *)
Definition contrast (L : Libs) (model : ols_model) : M bool :=
  print "--- 4. TABLA ANOVA Y RESULTADO DEL CONTRASTE ---" ;;
  call AnovaLm ;;
  anova_table <- lib (anova_lm L model) ;;
  print_obj (OAnova anova_table) ;;
  p_value_anova <- p_value_of anova_table ;;
  print "\nConclusión del Contraste ANOVA:" ;;
  if lt p_value_anova alpha then
    printf "   El p-valor ({p_value_anova:.4e}) es menor que alpha. SE RECHAZA H_0. "
           [ANum p_value_anova] ;;
    print "   Existen diferencias estadísticamente significativas en las ventas medias de al menos un supermercado. " ;;
    ret true
  else
    printf "   El p-valor ({p_value_anova:.4e}) es mayor que alpha. NO se rechaza H_0."
           [ANum p_value_anova] ;;
    print "   No hay evidencia de diferencias significativas en las ventas medias." ;;
    ret false.

(** Lines 113-126: the post-hoc analysis. *)
Definition post_hoc (L : Libs) (df_all_sales : list sale) (run_post_hoc : bool)
  : M unit :=
  if run_post_hoc then
    print "\n--- 5. CONTRASTE A POSTERIORI (TUKEY HSD) ---" ;;
    print "Buscando qué grupos específicos son diferentes entre sí... " ;;
    call TukeyHSD ;;
    tukey_result <- lib (pairwise_tukeyhsd L df_all_sales alpha) ;;
    print_obj (OTukey tukey_result) ;;
    print "\n--- 6. CONCLUSIÓN FINAL ---" ;;
    print "La tabla de Tukey HSD muestra los pares de supermercados con diferencias significativas ('reject'=True). " ;;
    print "Esto permite identificar qué tiendas tienen un rendimiento de ventas significativamente distinto a otras. "
  else
    print "\n--- 5 y 6. NO SE REQUIERE ANÁLISIS POST-HOC ---".

(** Lines 42-126: what follows a successful load. *)
Definition analysis (L : Libs) (df_all_sales : list sale) : M unit :=
  print "--- 1. PLANTEAMIENTO DEL ANÁLISIS ANOVA ---" ;;
  print "H_0: Las medias de ventas de todos los supermercados son iguales." ;;
  print "H_1: Al menos una media de ventas es diferente." ;;
  printf "Nivel de significancia alpha = {alpha}\n" [ANum alpha] ;;
  model <- check_assumptions L df_all_sales ;;
  plots L df_all_sales ;;
  run_post_hoc <- contrast L model ;;
  post_hoc L df_all_sales run_post_hoc.

Definition body (L : Libs) (ruta_archivo_excel : string) : M unit :=
  df_all_sales <- try_except (load L ruta_archivo_excel)
                             (on_error ruta_archivo_excel) ;;
  analysis L df_all_sales.

Definition analisis_anova_completo (L : Libs) (ruta_archivo_excel : string)
  : list event * outcome :=
  run_function (body L ruta_archivo_excel).

End Anova_py.

(* ------------------------------------------------------------------ *)
(** * A concrete library and concrete workbooks

    Executable stand-ins for the libraries, used to run the two functions on
    explicit workbooks: a digit-limited square root, a short table of Student
    quantiles, a month grouping for sheets in date order, and a Tukey table
    that follows the convention of statsmodels ([meandiff] is the mean of
    [group2] minus the mean of [group1], pairs in label order). *)

Module Demo.

(** Square root to three decimals: [sqrt (a/b) = sqrt (a*b) / b]. *)
Definition sqrt3 (x : Q) : Q :=
  Z.sqrt (Qnum x * Zpos (Qden x) * 1000000) # (Qden x * 1000).

(** Two-sided Student quantiles for 0.975 and 0.995. *)
Definition t_table (q : Q) (df : Z) : Q :=
  if Qeq_bool q (975 # 1000) then
    if df =? 1 then 12706 # 1000
    else if df =? 2 then 4303 # 1000
    else if df =? 3 then 3182 # 1000
    else 1960 # 1000
  else
    if df =? 1 then 63657 # 1000
    else if df =? 2 then 9925 # 1000
    else if df =? 3 then 5841 # 1000
    else 2576 # 1000.

Definition month_of (c : cell) : exn + option period :=
  match c with
  | CDate d => inr (Some {| p_year := d_year d; p_month := d_month d |})
  | CNull => inr None
  | _ => inl ValueError
  end.

Definition period_eqb (p q : period) : bool :=
  (p_year p =? p_year q) && (p_month p =? p_month q).

Fixpoint add_obs (p : period) (v : list Q) (gs : list (period * list Q))
  : list (period * list Q) :=
  match gs with
  | [] => [(p, v)]
  | (q, vs) :: gs' =>
      if period_eqb p q then (q, vs ++ v) :: gs' else (q, vs) :: add_obs p v gs'
  end.

Fixpoint group_rows (rs : list (cell * cell)) (acc : list (period * list Q))
  : exn + list (period * list Q) :=
  match rs with
  | [] => inr acc
  | (f, v) :: rs' =>
      match month_of f, v with
      | inl e, _ => inl e
      | inr None, _ => group_rows rs' acc
      | inr (Some p), CNum q => group_rows rs' (add_obs p [q] acc)
      | inr (Some p), CNull => group_rows rs' (add_obs p [] acc)
      | inr (Some p), _ => inl TypeError
      end
  end.

(** All pairs in order, [meandiff = mean group2 - mean group1]. *)
Fixpoint pairs (p : num) (ms : list (string * num)) : tukey_table :=
  match ms with
  | [] => []
  | (g1, m1) :: ms' =>
      map (fun g => {| group1 := g1; group2 := fst g;
                       meandiff := sub (snd g) m1;
                       p_adj := p;
                       lower := sub (sub (snd g) m1) (Some 1%Q);
                       upper := add (sub (snd g) m1) (Some 1%Q);
                       reject := lt p alpha |}) ms'
      ++ pairs p ms'
  end.

Definition tukey (p : num) (df : list sale) (a : num) : exn + tukey_table :=
  match group_means (groupby_Supermercado df) with
  | inr ms => inr (pairs p ms)
  | inl e => inl e
  end.

Definition day (y m d : Z) : cell :=
  CDate {| d_year := y; d_month := m; d_day := d |}.

(** Two stores; the reference store has a month of two equal sales and a
    month with a single sale; one sale of the other store is missing. *)
Definition ventas : workbook :=
  [ ("Santa Ana",
      inr {| columns := ["Fecha"; "Ventas"];
             rows := [ [day 2024 1 5; CNum 100]; [day 2024 1 20; CNum 100];
                       [day 2024 2 3; CNum 80]; [day 2024 2 10; CNum 120];
                       [day 2024 3 1; CNum 90] ] |});
    ("Centro",
      inr {| columns := ["Dia"; "Importe"];
             rows := [ [day 2024 1 5; CNum 200]; [day 2024 1 6; CNull];
                       [day 2024 1 7; CNum 220] ] |}) ].

(** One store only. *)
Definition una_tienda : workbook :=
  [ ("Santa Ana",
      inr {| columns := ["Fecha"; "Ventas"];
             rows := [ [day 2024 1 5; CNum 100]; [day 2024 1 20; CNum 110] ] |}) ].

(** Two stores, the second sheet with a third column. *)
Definition con_notas : workbook :=
  [ ("Norte",
      inr {| columns := ["Fecha"; "Ventas"];
             rows := [ [day 2024 1 5; CNum 10]; [day 2024 1 6; CNum 12] ] |});
    ("Sur",
      inr {| columns := ["Fecha"; "Ventas"; "Notas"];
             rows := [ [day 2024 1 5; CNum 20; CText "feria"];
                       [day 2024 1 6; CNum 22; CNull] ] |}) ].

(** A sheet with a single column. *)
Definition sin_ventas : workbook :=
  [ ("Santa Ana",
      inr {| columns := ["Fecha"];
             rows := [ [day 2024 1 5]; [day 2024 1 20] ] |}) ].

Definition files (path : string) : exn + workbook :=
  if String.eqb path "ventas.xlsx" then inr ventas
  else if String.eqb path "sin_ventas.xlsx" then inr sin_ventas
  else if String.eqb path "una_tienda.xlsx" then inr una_tienda
  else if String.eqb path "con_notas.xlsx" then inr con_notas
  else inl FileNotFoundError.

(** The library with the p-values of the tests fixed: [p] for the ANOVA,
    [q] for both assumption tests and for every Tukey pair.  As in
    statsmodels, the ANOVA table of a model with a single store cannot be
    computed. *)
Definition libs (p q : num) : Libs :=
  {| ExcelFile := files;
     group_by_month := fun rs => group_rows rs [];
     np_sqrt := sqrt3;
     t_ppf := t_table;
     levene := fun _ => inr (Some 1%Q, q);
     ols_fit := fun df => inr {| model_data := df; resid := [] |};
     shapiro := fun _ => inr (Some 1%Q, q);
     anova_lm := fun model =>
       if (n_stores (model_data model) <? 2)%nat then inl ValueError
       else
         inr [ ("C(Supermercado)",
                 {| sum_sq := NaN; df := NaN; F := NaN; PR_F := p |});
               ("Residual",
                 {| sum_sq := NaN; df := NaN; F := NaN; PR_F := NaN |}) ];
     pairwise_tukeyhsd := tukey q;
     pyplot := fun _ => inr tt |}.

End Demo.

(* ------------------------------------------------------------------ *)
(** * Vocabulary of the statements *)


(** Whether a trace records a call of the library routine [f]. *)
Definition is_call (f : libcall) (e : event) : bool :=
  match e, f with
  | ECall Levene, Levene | ECall OlsFit, OlsFit | ECall Shapiro, Shapiro
  | ECall AnovaLm, AnovaLm | ECall TukeyHSD, TukeyHSD
  | ECall KdePlot, KdePlot | ECall BoxPlot, BoxPlot => true
  | _, _ => false
  end.

Definition called (f : libcall) (t : list event) : bool := existsb (is_call f) t.

(** A statement that prints nothing and never leaves by [return]. *)
Definition quiet {A} (m : M A) : Prop := fst m = [] /\ snd m <> Ret.

(** The statement never calls [f]. *)
Definition never {A} (f : libcall) (m : M A) : Prop := called f (fst m) = false.

(** The first two cells of a sheet row. *)
Definition first_two (r : list cell) : cell * cell := (nth 0 r CNull, nth 1 r CNull).

(** The rows a sheet contributes to the combined table. *)
Definition sheet_rows (s : string * raw_frame) : list sale :=
  set_Supermercado (fst s) (map first_two (rows (snd s))).

(** The number of rows of a sheet whose sales cell is not missing. *)
Definition valid_rows (f : raw_frame) : nat :=
  List.length (filter (fun r => negb (isnull (nth 1 r CNull))) (rows f)).

(** A workbook all of whose sheets can be read. *)
Definition readable (sheets : list (string * raw_frame)) : workbook :=
  map (fun s => (fst s, inr (snd s))) sheets.

(** The library [L] with other Levene and Shapiro-Wilk routines. *)
Definition with_tests (L : Libs)
           (lev : list (list cell) -> exn + (num * num))
           (sh : list num -> exn + (num * num)) : Libs :=
  {| ExcelFile := ExcelFile L;
     group_by_month := group_by_month L;
     np_sqrt := np_sqrt L;
     t_ppf := t_ppf L;
     levene := lev;
     ols_fit := ols_fit L;
     shapiro := sh;
     anova_lm := anova_lm L;
     pairwise_tukeyhsd := pairwise_tukeyhsd L;
     pyplot := pyplot L |}.

(** The lines that report the outcome of the two assumption tests. *)
Definition diagnostic (e : event) : bool :=
  match e with
  | EPrintF s _ =>
      String.eqb s "   p-valor = {levene_p:.4f}"
      || String.eqb s "   p-valor = {shapiro_p:.4f}"
  | EPrint s =>
      existsb (String.eqb s)
        [ "   Conclusión: Se cumple el requisito de homogeneidad de varianzas. ";
          "   Conclusión: NO se cumple el requisito de homogeneidad de varianzas. ";
          "   Conclusión: Se cumple el requisito de normalidad. ";
          "   Conclusión: NO se cumple el requisito de normalidad. " ]
  | _ => false
  end.

(** A trace without its diagnostic lines. *)
Definition but_diagnostics (t : list event) : list event :=
  filter (fun e => negb (diagnostic e)) t.

(** Two results of a library routine that are both values or the same
    exception. *)
Definition alike {A} (r1 r2 : exn + A) : Prop :=
  match r1, r2 with
  | inl e1, inl e2 => e1 = e2
  | inr _, inr _ => True
  | _, _ => False
  end.

(** Two statements with the same trace up to diagnostic lines and the same
    result. *)
Definition same_but_diagnostics {A} (m1 m2 : M A) : Prop :=
  but_diagnostics (fst m1) = but_diagnostics (fst m2) /\ snd m1 = snd m2.

(** Which events save a figure. *)
Definition is_savefig (e : event) : bool :=
  match e with ESaveFig _ => true | _ => false end.

(** The separator line that closes the report of a month. *)
Definition is_separator (e : event) : bool :=
  match e with EPrint s => String.eqb s (dashes 30) | _ => false end.

(** The console lines of [analisis_anova_completo] before the assumption
    checks, after a successful load. *)
Definition anova_preamble : list event :=
  [ EPrint "--- 0. CARGANDO Y PREPARANDO DATOS ---";
    EPrint "Datos cargados correctamente.\n";
    EPrint "--- 1. PLANTEAMIENTO DEL ANÁLISIS ANOVA ---";
    EPrint "H_0: Las medias de ventas de todos los supermercados son iguales.";
    EPrint "H_1: Al menos una media de ventas es diferente.";
    EPrintF "Nivel de significancia alpha = {alpha}\n" [ANum alpha] ].

(** The statement saves no figure. *)
Definition no_savefig {A} (m : M A) : Prop := filter is_savefig (fst m) = [].

(** The statement ends with a value: it neither raises nor returns early. *)
Definition completes {A} (m : M A) : Prop := exists a, snd m = Ok a.

(* ------------------------------------------------------------------ *)
(** * Traces of sequenced statements *)

Lemma bind_ok {A B} (m : M A) (k : A -> M B) (a : A) :
  snd m = Ok a -> bind m k = (fst m ++ fst (k a), snd (k a)).
Proof.
  destruct m as [t r]; simpl; intros ->.
  destruct (k a); reflexivity.
Qed.

Lemma bind_ret {A B} (m : M A) (k : A -> M B) :
  snd m = Ret -> bind m k = (fst m, Ret).
Proof. destruct m as [t r]; simpl; intros ->; reflexivity. Qed.

Lemma bind_raise {A B} (m : M A) (k : A -> M B) (e : exn) :
  snd m = Raise e -> bind m k = (fst m, Raise e).
Proof. destruct m as [t r]; simpl; intros ->; reflexivity. Qed.

Lemma bind_emit {B} (e : event) (k : unit -> M B) :
  bind (emit e) k = (e :: fst (k tt), snd (k tt)).
Proof. unfold emit; simpl. destruct (k tt); reflexivity. Qed.

Lemma bind_ret_l {A B} (a : A) (k : A -> M B) : bind (ret a) k = k a.
Proof. unfold ret; simpl. destruct (k a); reflexivity. Qed.

Lemma fst_run_function (m : M unit) : fst (run_function m) = fst m.
Proof. destruct m as [t [[]| |e]]; reflexivity. Qed.


(* ------------------------------------------------------------------ *)
(** * A path that does not resolve *)

(** C3, as amended: when the path does not resolve to a file,
    [analisis_anova_completo] prints its loading banner and the two lines of
    the file-not-found report and returns, with nothing after them;
    [analyze_sales_data] opens the workbook outside any [try], so the
    [FileNotFoundError] leaves the function and nothing is printed. *)
Theorem missing_file (L : Libs) (path name : string) :
  ExcelFile L path = inl FileNotFoundError ->
  Anova_py.analisis_anova_completo L path =
    ([ EPrint "--- 0. CARGANDO Y PREPARANDO DATOS ---";
       EPrintF "ERROR: No se encontró el archivo en la ruta '{ruta_archivo_excel}'."
               [AStr path];
       EPrint "Por favor, asegúrate de que el archivo ha sido subido y la ruta es correcta." ],
     Returned)
  /\ Main_py.analyze_sales_data L path name = ([], Raised FileNotFoundError).
Proof.
  intros H. split.
  - unfold Anova_py.analisis_anova_completo, Anova_py.body, Anova_py.load.
    rewrite H. reflexivity.
  - unfold Main_py.analyze_sales_data, Main_py.body.
    rewrite H. reflexivity.
Qed.

Lemma missing_file_witness :
  ExcelFile (Demo.libs NaN NaN) "no_existe.xlsx" = inl FileNotFoundError
  /\ Anova_py.analisis_anova_completo (Demo.libs NaN NaN) "no_existe.xlsx" =
       ([ EPrint "--- 0. CARGANDO Y PREPARANDO DATOS ---";
          EPrintF "ERROR: No se encontró el archivo en la ruta '{ruta_archivo_excel}'."
                  [AStr "no_existe.xlsx"];
          EPrint "Por favor, asegúrate de que el archivo ha sido subido y la ruta es correcta." ],
        Returned)
  /\ Main_py.analyze_sales_data (Demo.libs NaN NaN) "no_existe.xlsx" "Santa Ana"
     = ([], Raised FileNotFoundError).
Proof.
  split; [reflexivity|].
  apply (missing_file (Demo.libs NaN NaN) "no_existe.xlsx" "Santa Ana").
  reflexivity.
Defined.

(** C3 as stated fails for [analyze_sales_data]: on a path that does not
    resolve it raises and reports nothing. *)
Lemma missing_file_main_raises :
  ExcelFile (Demo.libs NaN NaN) "sin_archivo.xlsx" = inl FileNotFoundError
  /\ Main_py.analyze_sales_data (Demo.libs NaN NaN) "sin_archivo.xlsx" "Santa Ana"
     = ([], Raised FileNotFoundError).
Proof. split; reflexivity. Qed.

(* ------------------------------------------------------------------ *)
(** * Loading in anova.py *)

Lemma lib_silent {A} (r : exn + A) : fst (lib r) = [].
Proof. destruct r; reflexivity. Qed.

Lemma read_excel_silent (xls : workbook) (name : string) :
  fst (read_excel xls name) = [].
Proof.
  unfold read_excel. destruct (find _ xls) as [[n r]|]; [apply lib_silent|reflexivity].
Qed.

Lemma read_excel_no_ret (xls : workbook) (name : string) :
  snd (read_excel xls name) <> Ret.
Proof.
  unfold read_excel. destruct (find _ xls) as [[n [e|f]]|]; simpl; discriminate.
Qed.

Lemma quiet_bind {A B} (m : M A) (k : A -> M B) :
  quiet m -> (forall a, quiet (k a)) -> quiet (bind m k).
Proof.
  intros [Hm1 Hm2] Hk. destruct m as [t r]; simpl in *; subst t.
  destruct r as [a| |e]; simpl.
  - destruct (Hk a) as [H1 H2]. destruct (k a) as [t' r']; simpl in *.
    subst t'. split; [reflexivity|assumption].
  - contradiction.
  - split; [reflexivity|discriminate].
Qed.

Lemma quiet_ret {A} (a : A) : quiet (ret a).
Proof. split; [reflexivity|discriminate]. Qed.

Lemma quiet_raise {A} (e : exn) : quiet (@raise A e).
Proof. split; [reflexivity|discriminate]. Qed.

Lemma quiet_lib {A} (r : exn + A) : quiet (lib r).
Proof. destruct r; [apply quiet_raise|apply quiet_ret]. Qed.

Lemma quiet_read_excel (xls : workbook) (name : string) : quiet (read_excel xls name).
Proof. split; [apply read_excel_silent|apply read_excel_no_ret]. Qed.

Lemma quiet_iloc_0_1 (df : raw_frame) : quiet (iloc_0_1 df).
Proof.
  unfold iloc_0_1. destruct (_ <? _)%nat; [apply quiet_raise|apply quiet_ret].
Qed.

Lemma quiet_set_columns (df : raw_frame) : quiet (set_columns_Fecha_Ventas df).
Proof.
  unfold set_columns_Fecha_Ventas.
  destruct (_ =? _)%nat; [apply quiet_ret|apply quiet_raise].
Qed.

Lemma quiet_concat (frames : list (list sale)) : quiet (concat frames).
Proof. destruct frames; [apply quiet_raise|apply quiet_ret]. Qed.

Create HintDb quiet.

#[local] Hint Resolve quiet_ret quiet_raise quiet_lib quiet_read_excel
  quiet_iloc_0_1 quiet_set_columns quiet_concat : quiet.

Lemma quiet_anova_read_sheets (xls : workbook) (names : list string) :
  quiet (Anova_py.read_sheets xls names).
Proof.
  induction names as [|n names IH]; simpl.
  - auto with quiet.
  - repeat (apply quiet_bind; [auto with quiet|intros]). auto with quiet.
Qed.

Lemma quiet_main_read_sheets (xls : workbook) (names : list string) :
  quiet (Main_py.read_sheets xls names).
Proof.
  induction names as [|n names IH]; simpl.
  - auto with quiet.
  - repeat (apply quiet_bind; [auto with quiet|intros]). auto with quiet.
Qed.

(** The body of the [try] either yields the table, after the banner and the
    confirmation line, or raises right after the banner; it has no [return]. *)
Lemma load_cases (L : Libs) (path : string) :
  (exists df,
      Anova_py.load L path =
        ([EPrint "--- 0. CARGANDO Y PREPARANDO DATOS ---";
          EPrint "Datos cargados correctamente.\n"], Ok df))
  \/ (exists e,
      Anova_py.load L path =
        ([EPrint "--- 0. CARGANDO Y PREPARANDO DATOS ---"], Raise e)).
Proof.
  unfold Anova_py.load, print. rewrite bind_emit.
  destruct (ExcelFile L path) as [e|xls]; simpl.
  - right. exists e. reflexivity.
  - destruct (quiet_anova_read_sheets xls (sheet_names xls)) as [H1 H2].
    destruct (Anova_py.read_sheets xls (sheet_names xls)) as [t [frames| |e]];
      simpl in *; subst t.
    + destruct frames as [|f frames]; simpl.
      * right. eexists. reflexivity.
      * left. eexists. reflexivity.
    + contradiction.
    + right. exists e. reflexivity.
Qed.



(* ------------------------------------------------------------------ *)
(** * The monthly confidence intervals *)

(** C5, as amended: a month gets its 95% and 99% intervals exactly when its
    count is at least 2 and its standard deviation is not missing (NaN); a
    deviation of zero is not excluded.  The standard error is the deviation
    over the square root of the count, the critical values are the Student
    quantiles at 0.975 and 0.995 with count - 1 degrees of freedom, and each
    interval is the mean minus and plus the critical value times the standard
    error.  Every other month gets the insufficient-data line and no
    interval.  In both cases the loop body raises nothing. *)
Theorem intervals_guard (L : Libs) (row : month_row) :
  let n := N_Observaciones row in
  let sd := Desviacion_Estandar row in
  let m := Media_Ventas row in
  let se := div sd (Some (np_sqrt L (inject_Z n))) in
  let t95 := Some (t_ppf L (975 # 1000) (n - 1)) in
  let t99 := Some (t_ppf L (995 # 1000) (n - 1)) in
  snd (Main_py.report_month L row) = Ok tt
  /\ (Main_py.confidence_intervals L row <> None <-> 2 <= n /\ sd <> NaN)
  /\ match Main_py.confidence_intervals L row with
     | Some ci =>
         Main_py.se ci = se
         /\ Main_py.lower_95 ci = sub m (mul t95 se)
         /\ Main_py.upper_95 ci = add m (mul t95 se)
         /\ Main_py.lower_99 ci = sub m (mul t99 se)
         /\ Main_py.upper_99 ci = add m (mul t99 se)
         /\ fst (Main_py.report_month L row) =
              [ EPrintF "Mes: {mes_año}" [APeriod (AñoMes row)];
                EPrintF "  Ventas Promedio: ${media_ventas:,.2f}" [ANum m];
                EPrintF "  Nº de Días de Venta: {n_observaciones}" [AInt n];
                EPrintF "  Desviación Estándar (Ventas Diarias): ${desviacion_estandar:,.2f}"
                        [ANum sd];
                EPrintF "  IC 95%: [${lower_95:,.2f}, ${upper_95:,.2f}]"
                        [ANum (sub m (mul t95 se)); ANum (add m (mul t95 se))];
                EPrintF "  IC 99%: [${lower_99:,.2f}, ${upper_99:,.2f}]"
                        [ANum (sub m (mul t99 se)); ANum (add m (mul t99 se))];
                EPrint (dashes 30) ]
     | None =>
         fst (Main_py.report_month L row) =
           [ EPrintF "Mes: {mes_año} - No hay suficientes datos ({n_observaciones} observaciones) o la desviación estándar es nula para calcular el IC. Se necesitan al menos 2 días de venta por mes."
                     [APeriod (AñoMes row); AInt n];
             EPrint (dashes 30) ]
     end.
Proof.
  intros n sd m se t95 t99.
  unfold Main_py.report_month, Main_py.confidence_intervals.
  fold n sd m. destruct (1 <? n) eqn:Hn; destruct sd as [s|] eqn:Hsd; simpl.
  - apply Z.ltb_lt in Hn.
    split; [reflexivity|]. split.
    + split; [intros _; split; [lia|discriminate]|discriminate].
    + repeat split; reflexivity.
  - apply Z.ltb_lt in Hn. split; [reflexivity|]. split; [|reflexivity].
    split; [intros H; now elim H|intros [_ H]; now elim H].
  - apply Z.ltb_ge in Hn. split; [reflexivity|]. split; [|reflexivity].
    split; [intros H; now elim H|intros [H _]; lia].
  - apply Z.ltb_ge in Hn. split; [reflexivity|]. split; [|reflexivity].
    split; [intros H; now elim H|intros [H _]; lia].
Qed.

(** C5 as stated fails: a month of two sales whose standard deviation is zero
    gets both intervals, not the insufficient-data line. *)
Lemma zero_deviation_gets_intervals :
  let row := {| AñoMes := {| p_year := 2024; p_month := 1 |};
                Media_Ventas := Some 100%Q;
                Desviacion_Estandar := Some 0%Q;
                N_Observaciones := 2 |} in
  Main_py.confidence_intervals (Demo.libs NaN NaN) row <> None
  /\ fst (Main_py.report_month (Demo.libs NaN NaN) row) =
       [ EPrintF "Mes: {mes_año}" [APeriod {| p_year := 2024; p_month := 1 |}];
         EPrintF "  Ventas Promedio: ${media_ventas:,.2f}" [ANum (Some 100%Q)];
         EPrintF "  Nº de Días de Venta: {n_observaciones}" [AInt 2];
         EPrintF "  Desviación Estándar (Ventas Diarias): ${desviacion_estandar:,.2f}"
                 [ANum (Some 0%Q)];
         EPrintF "  IC 95%: [${lower_95:,.2f}, ${upper_95:,.2f}]"
                 [ANum (Some (141400000 # 1414000)%Q);
                  ANum (Some (141400000 # 1414000)%Q)];
         EPrintF "  IC 99%: [${lower_99:,.2f}, ${upper_99:,.2f}]"
                 [ANum (Some (141400000 # 1414000)%Q);
                  ANum (Some (141400000 # 1414000)%Q)];
         EPrint "------------------------------" ].
Proof. split; [discriminate|vm_compute; reflexivity]. Qed.

Lemma square_nonneg (x : Q) : (0 <= x * x)%Q.
Proof.
  destruct (Qlt_le_dec x 0) as [H|H].
  - setoid_replace (x * x)%Q with ((-x) * (-x))%Q by ring.
    apply Qmult_le_0_compat; lra.
  - apply Qmult_le_0_compat; assumption.
Qed.

Lemma sum_sq_nonneg (m : Q) (vs : list Q) :
  (0 <= Pandas.sum (map (fun x => (x - m) * (x - m)) vs))%Q.
Proof.
  unfold Pandas.sum. induction vs as [|v vs IH]; cbn [map fold_right].
  - apply Qle_refl.
  - assert (H := square_nonneg (v - m)). lra.
Qed.

Lemma count_cons_pos (vs : list Q) : 1 < Pandas.count vs -> vs <> [].
Proof. intros H ->. unfold Pandas.count in H. simpl in H. lia. Qed.

Section Widths.

Variable L : Libs.

(** What the intervals need of the two library functions: square roots are
    not negative, those of positive numbers are positive, and the Student
    quantile at 0.995 is not below the one at 0.975. *)
Hypothesis np_sqrt_nonneg : forall x : Q, (0 <= x -> 0 <= np_sqrt L x)%Q.
Hypothesis np_sqrt_pos : forall x : Q, (0 < x -> 0 < np_sqrt L x)%Q.
Hypothesis t_ppf_levels :
  forall d : Z, 1 <= d -> (t_ppf L (975 # 1000) d <= t_ppf L (995 # 1000) d)%Q.

(** The deviation pandas reports for a group is a number, not negative,
    as soon as the group has two values. *)
Lemma std_nonneg (vs : list Q) :
  1 < Pandas.count vs ->
  exists m s, Pandas.mean vs = Some m /\ Pandas.std L vs = Some s /\ (0 <= s)%Q.
Proof.
  intros Hn. unfold Pandas.std, Pandas.mean.
  destruct vs as [|v vs]; [exfalso; now apply (count_cons_pos [])|].
  set (m := (Pandas.sum (v :: vs) / inject_Z (Pandas.count (v :: vs)))%Q).
  exists m. destruct (Pandas.count (v :: vs) <? 2) eqn:E.
  - apply Z.ltb_lt in E. lia.
  - eexists. split; [reflexivity|]. split; [reflexivity|].
    apply np_sqrt_nonneg.
    apply Qle_shift_div_l.
    + change 0%Q with (inject_Z 0). rewrite <- Zlt_Qlt. lia.
    + rewrite Qmult_0_l. apply sum_sq_nonneg.
Qed.

(** C6: for every month of the reference store that gets intervals, all
    four bounds are numbers and the 99% interval is at least as wide as the
    95% one. *)
Theorem wider_at_99 (g : period * list Q) (ci : Main_py.intervals) :
  Main_py.confidence_intervals L (agg L g) = Some ci ->
  exists l95 u95 l99 u99 : Q,
    Main_py.lower_95 ci = Some l95 /\ Main_py.upper_95 ci = Some u95
    /\ Main_py.lower_99 ci = Some l99 /\ Main_py.upper_99 ci = Some u99
    /\ (u95 - l95 <= u99 - l99)%Q.
Proof.
  unfold Main_py.confidence_intervals, agg. destruct g as [p vs]. simpl.
  destruct (1 <? Pandas.count vs) eqn:Hn; simpl; [|discriminate].
  apply Z.ltb_lt in Hn.
  destruct (std_nonneg vs Hn) as [m [s [Hm [Hs Hs0]]]].
  rewrite Hm, Hs. simpl.
  assert (Hr : (0 < np_sqrt L (inject_Z (Pandas.count vs)))%Q).
  { apply np_sqrt_pos. change 0%Q with (inject_Z 0). rewrite <- Zlt_Qlt. lia. }
  destruct (Qeq_bool (np_sqrt L (inject_Z (Pandas.count vs))) 0) eqn:E.
  { apply Qeq_bool_iff in E. rewrite E in Hr. now apply Qlt_irrefl in Hr. }
  intros H. injection H as <-. simpl.
  do 4 eexists. repeat (split; [reflexivity|]).
  set (se := (s / np_sqrt L (inject_Z (Pandas.count vs)))%Q).
  assert (Hse : (0 <= se)%Q).
  { unfold se. apply Qle_shift_div_l; [assumption|]. now rewrite Qmult_0_l. }
  assert (Ht := t_ppf_levels (Pandas.count vs - 1) ltac:(lia)).
  assert (Hm95 := Qmult_le_compat_r _ _ se Ht Hse).
  lra.
Qed.

End Widths.

Lemma sqrt3_nonneg (x : Q) : (0 <= x -> 0 <= Demo.sqrt3 x)%Q.
Proof.
  intros _. unfold Demo.sqrt3, Qle. simpl. rewrite Z.mul_1_r.
  apply Z.sqrt_nonneg.
Qed.

Lemma sqrt3_pos (x : Q) : (0 < x -> 0 < Demo.sqrt3 x)%Q.
Proof.
  unfold Demo.sqrt3, Qlt. destruct x as [a b]. simpl. rewrite !Z.mul_1_r.
  intros H. apply Z.sqrt_pos. nia.
Qed.

Lemma t_table_levels (d : Z) :
  1 <= d -> (Demo.t_table (975 # 1000) d <= Demo.t_table (995 # 1000) d)%Q.
Proof.
  intros _. unfold Demo.t_table.
  change (Qeq_bool (975 # 1000) (975 # 1000)) with true.
  change (Qeq_bool (995 # 1000) (975 # 1000)) with false.
  cbv iota.
  destruct (d =? 1); [discriminate|].
  destruct (d =? 2); [discriminate|].
  destruct (d =? 3); discriminate.
Qed.

Lemma wider_at_99_witness :
  exists l95 u95 l99 u99 : Q,
    Some (-6975349776000 # 45248000000)%Q = Some l95
    /\ Some (16024949776000 # 45248000000)%Q = Some u95
    /\ Some (-53090896072000 # 45248000000)%Q = Some l99
    /\ Some (62140496072000 # 45248000000)%Q = Some u99
    /\ (u95 - l95 <= u99 - l99)%Q.
Proof.
  exact (wider_at_99 (Demo.libs NaN NaN) sqrt3_nonneg sqrt3_pos t_table_levels
           ({| p_year := 2024; p_month := 2 |}, [80; 120]%Q) _ eq_refl).
Defined.

(* ------------------------------------------------------------------ *)
(** * The extremes comparison *)

Lemma specific_comparison_In (tukey_df : tukey_table) (hi lo : string) (r : tukey_row) :
  In r (Main_py.specific_comparison tukey_df hi lo) <->
  In r tukey_df
  /\ ((group1 r = hi /\ group2 r = lo) \/ (group1 r = lo /\ group2 r = hi)).
Proof.
  unfold Main_py.specific_comparison. rewrite filter_In.
  rewrite orb_true_iff, !andb_true_iff, !String.eqb_eq. reflexivity.
Qed.

(** The pair of the two extreme stores is found in the Tukey table in either
    order of its two labels; what is printed is the raw
    [meandiff] of the first such row when its [group1] is not the lowest
    store, that is when the row is stored as (highest, lowest), and the
    [meandiff] times -1 when its [group1] is the lowest store.  With the
    engine's convention, [meandiff] being the mean of [group2] minus the mean
    of [group1], the printed value is therefore the mean of the lowest store
    minus the mean of the highest store. *)
Theorem extremes_sign (L : Libs) (df_all_sales : list sale) (tukey_df : tukey_table)
        (hi lo : string) (first : tukey_row) (rest : tukey_table) :
  pairwise_tukeyhsd L df_all_sales (Some (5 # 100)%Q) = inr tukey_df ->
  Main_py.specific_comparison tukey_df hi lo = first :: rest ->
  (forall r, In r (Main_py.specific_comparison tukey_df hi lo) <->
             In r tukey_df
             /\ ((group1 r = hi /\ group2 r = lo) \/ (group1 r = lo /\ group2 r = hi)))
  /\ In (EPrintF "  Diferencia de medias: ${mean_diff_tukey:,.2f}"
                 [ANum (Main_py.reported_mean_diff first lo)])
        (fst (Main_py.post_hoc L df_all_sales hi lo))
  /\ (group1 first <> lo ->
      group1 first = hi /\ group2 first = lo
      /\ Main_py.reported_mean_diff first lo = meandiff first)
  /\ (group1 first = lo ->
      group2 first = hi
      /\ Main_py.reported_mean_diff first lo = mul (meandiff first) (Some (-1 # 1)%Q))
  /\ (forall mean : string -> Q,
        meandiff first = Some (mean (group2 first) - mean (group1 first))%Q ->
        exists d : Q,
          Main_py.reported_mean_diff first lo = Some d /\ (d == mean lo - mean hi)%Q).
Proof.
  intros Ht Hs.
  assert (Hin : In first (Main_py.specific_comparison tukey_df hi lo))
    by (rewrite Hs; left; reflexivity).
  apply specific_comparison_In in Hin. destruct Hin as [_ Hpair].
  split; [intros r; apply specific_comparison_In|].
  split.
  { unfold Main_py.post_hoc, print, printf, call, print_obj.
    rewrite Ht, !bind_emit. cbn [fst snd lib].
    rewrite bind_ret_l, bind_emit. cbn [fst snd]. rewrite Hs.
    destruct (lt (p_adj first) alpha); simpl; auto 10. }
  unfold Main_py.reported_mean_diff.
  split; [|split].
  - intros Hne. destruct Hpair as [[H1 H2]|[H1 H2]]; [|contradiction].
    repeat split; try assumption.
    apply String.eqb_neq in Hne. now rewrite Hne.
  - intros He. split.
    + destruct Hpair as [[H1 H2]|[H1 H2]]; congruence.
    + apply String.eqb_eq in He. now rewrite He.
  - intros mean Hm. rewrite Hm.
    destruct (String.eqb (group1 first) lo) eqn:E.
    + apply String.eqb_eq in E.
      assert (H2 : group2 first = hi)
        by (destruct Hpair as [[H1 H2]|[H1 H2]]; congruence).
      rewrite E, H2. simpl. eexists. split; [reflexivity|ring].
    + apply String.eqb_neq in E.
      destruct Hpair as [[H1 H2]|[H1 H2]]; [|contradiction].
      rewrite H1, H2. eexists. split; [reflexivity|ring].
Qed.

Lemma extremes_sign_witness :
  let L := Demo.libs (Some (1 # 100)%Q) (Some (2 # 100)%Q) in
  let df := dropna_Ventas
              (set_Supermercado "Santa Ana" [(CNull, CNum 98)]
               ++ set_Supermercado "Centro" [(CNull, CNum 210)]) in
  let first := {| group1 := "Centro"; group2 := "Santa Ana";
                  meandiff := Some (-112 # 1)%Q; p_adj := Some (2 # 100)%Q;
                  lower := Some (-113 # 1)%Q; upper := Some (-111 # 1)%Q;
                  reject := true |} in
  pairwise_tukeyhsd L df (Some (5 # 100)%Q) = inr [first]
  /\ Main_py.specific_comparison [first] "Centro" "Santa Ana" = [first]
  /\ (group1 first <> "Santa Ana" ->
      group1 first = "Centro" /\ group2 first = "Santa Ana"
      /\ Main_py.reported_mean_diff first "Santa Ana" = meandiff first).
Proof.
  intros L df first.
  assert (Ht : pairwise_tukeyhsd L df (Some (5 # 100)%Q) = inr [first])
    by (vm_compute; reflexivity).
  assert (Hs : Main_py.specific_comparison [first] "Centro" "Santa Ana" = [first])
    by reflexivity.
  split; [exact Ht|]. split; [exact Hs|].
  exact (proj1 (proj2 (proj2 (extremes_sign L df [first] "Centro" "Santa Ana"
                                            first [] Ht Hs)))).
Defined.

(** C2: the printed mean difference is not the highest mean minus the lowest
    one.  On the workbook of two stores, section 3 prints Centro (mean 210) as
    the highest store and Santa Ana (mean 98) as the lowest; the engine stores
    the pair as (Centro, Santa Ana) with [meandiff] 98 - 210; its [group1] is
    not the lowest store, so the script prints the value unchanged, and the
    printed -112 is the lowest mean minus the highest one, not 210 - 98. *)
Lemma printed_difference_is_negative :
  let t := fst (Main_py.analyze_sales_data
                  (Demo.libs (Some (1 # 100)%Q) (Some (2 # 100)%Q))
                  "ventas.xlsx" "Santa Ana") in
  nth_error t 37 =
    Some (EPrintF "\nTienda con mayor promedio de ventas: '{supermarket_highest_sales}' (${avg_sales_by_supermarket.iloc[0]:,.2f})"
                  [AStr "Centro"; ANum (Some (420 # 2)%Q)])
  /\ nth_error t 38 =
    Some (EPrintF "Tienda con menor promedio de ventas: '{supermarket_lowest_sales}' (${avg_sales_by_supermarket.iloc[-1]:,.2f})"
                  [AStr "Santa Ana"; ANum (Some (490 # 5)%Q)])
  /\ nth_error t 41 =
    Some (EPrintObj (OTukey [ {| group1 := "Centro"; group2 := "Santa Ana";
                                 meandiff := Some (-1120 # 10)%Q;
                                 p_adj := Some (2 # 100)%Q;
                                 lower := Some (-1130 # 10)%Q;
                                 upper := Some (-1110 # 10)%Q;
                                 reject := true |} ]))
  /\ nth_error t 43 =
    Some (EPrintF "  Diferencia de medias: ${mean_diff_tukey:,.2f}"
                  [ANum (Some (-1120 # 10)%Q)])
  /\ ~ ((-1120 # 10) == (420 # 2) - (490 # 5))%Q
  /\ ((-1120 # 10) == (490 # 5) - (420 # 2))%Q.
Proof.
  repeat split; try (vm_compute; reflexivity).
  intros H. vm_compute in H. discriminate H.
Qed.

(* ------------------------------------------------------------------ *)
(** * Which library routines a run calls *)

Lemma called_app (f : libcall) (t t' : list event) :
  called f (t ++ t') = called f t || called f t'.
Proof. apply existsb_app. Qed.

Lemma never_bind {A B} (f : libcall) (m : M A) (k : A -> M B) :
  never f m -> (forall a, never f (k a)) -> never f (bind m k).
Proof.
  unfold never. destruct m as [t [a| |e]]; simpl; intros Hm Hk; try assumption.
  specialize (Hk a). destruct (k a) as [t' r]; simpl in *.
  rewrite called_app, Hm, Hk. reflexivity.
Qed.

Lemma never_emit (f : libcall) (e : event) : is_call f e = false -> never f (emit e).
Proof. unfold never; simpl. now intros ->. Qed.

Lemma never_quiet {A} (f : libcall) (m : M A) : quiet m -> never f m.
Proof. unfold never. now intros [-> _]. Qed.

Lemma never_for_each {A} (f : libcall) (xs : list A) (body : A -> M unit) :
  (forall x, never f (body x)) -> never f (for_each xs body).
Proof.
  intros H. induction xs as [|x xs IH]; simpl.
  - reflexivity.
  - apply never_bind; [apply H|intros; apply IH].
Qed.

Ltac never_step :=
  first
    [ apply never_bind; [|intros]
    | apply never_emit; reflexivity
    | solve [reflexivity]
    | apply never_quiet; solve [auto with quiet | split; [reflexivity|discriminate]]
    | match goal with
      | |- never _ (if ?c then _ else _) => destruct c
      | |- never _ (match ?x with _ => _ end) => destruct x
      end ].

Ltac never_tac :=
  unfold print, printf, print_obj, call; repeat never_step.

Lemma never_report_month (f : libcall) (L : Libs) (row : month_row) :
  never f (Main_py.report_month L row).
Proof. unfold Main_py.report_month. never_tac. Qed.

Lemma never_section_1 (f : libcall) (L : Libs) (xls : workbook) (name : string) :
  never f (Main_py.section_1 L xls name).
Proof.
  unfold Main_py.section_1. never_tac.
  apply never_for_each. intros; apply never_report_month.
Qed.

Lemma never_combined_table (f : libcall) (xls : workbook) :
  never f (Main_py.combined_table xls).
Proof.
  unfold Main_py.combined_table.
  apply never_bind; [apply never_quiet, quiet_main_read_sheets|intros].
  never_tac.
Qed.

Lemma never_main_p_value_of (f : libcall) (t : anova_table) :
  never f (Main_py.p_value_of t).
Proof. unfold Main_py.p_value_of. never_tac. Qed.

Lemma never_tukey_main_anova (L : Libs) (df : list sale) :
  never TukeyHSD (Main_py.anova L df).
Proof.
  unfold Main_py.anova. never_tac. apply never_main_p_value_of.
Qed.

Lemma never_load (f : libcall) (L : Libs) (path : string) :
  never f (Anova_py.load L path).
Proof.
  unfold never.
  destruct (load_cases L path) as [[df E]|[e E]]; rewrite E; reflexivity.
Qed.

Lemma never_tukey_check_assumptions (L : Libs) (df : list sale) :
  never TukeyHSD (Anova_py.check_assumptions L df).
Proof. unfold Anova_py.check_assumptions. never_tac. Qed.

(** A call that ends with a value has the trace of its first statement in
    front. *)
Lemma called_bind_l {A B} (f : libcall) (m : M A) (k : A -> M B) :
  called f (fst m) = true -> called f (fst (bind m k)) = true.
Proof.
  destruct m as [t [a| |e]]; simpl; intros H; try assumption.
  destruct (k a) as [t' r]; simpl. rewrite called_app, H. reflexivity.
Qed.

Lemma try_except_ok {A} (m : M A) (h : exn -> M A) (a : A) :
  snd m = Ok a -> try_except m h = m.
Proof. destruct m as [t r]; simpl; intros ->; reflexivity. Qed.

Lemma insert_label_nonempty (x : string) (xs : list string) : insert_label x xs <> [].
Proof. destruct xs; simpl; [|destruct (String.leb x s)]; discriminate. Qed.

Lemma insert_desc_nonempty (x : string * num) (xs : list (string * num)) :
  insert_desc x xs <> [].
Proof. destruct xs; simpl; [|destruct (before_desc x p)]; discriminate. Qed.

Lemma group_means_length (gs : list (string * list cell)) (ms : list (string * num)) :
  group_means gs = inr ms -> List.length ms = List.length gs.
Proof.
  revert ms. induction gs as [|[g cs] gs IH]; simpl; intros ms H.
  - injection H as <-. reflexivity.
  - destruct (numeric cs); [destruct (group_means gs); discriminate|].
    destruct (group_means gs) as [e|ms']; [discriminate|].
    injection H as <-. simpl. f_equal. now apply IH.
Qed.

(** A table with a row and numeric sales has a store with the highest mean. *)
Lemma highest_exists (df : list sale) (ms : list (string * num)) :
  df <> [] ->
  group_means (groupby_Supermercado df) = inr ms ->
  exists highest others, sort_values_desc ms = highest :: others.
Proof.
  intros Hdf Hms. apply group_means_length in Hms.
  destruct df as [|r df]; [contradiction|].
  unfold groupby_Supermercado in Hms. rewrite length_map in Hms.
  simpl in Hms.
  destruct ms as [|m ms].
  - exfalso. simpl in Hms.
    destruct (insert_label (Supermercado r)
                (sort_labels (filter (fun y => negb (String.eqb y (Supermercado r)))
                                     (unique (map Supermercado df))))) eqn:E.
    + now apply insert_label_nonempty in E.
    + discriminate.
  - simpl. destruct (insert_desc m (sort_values_desc ms)) eqn:E.
    + now apply insert_desc_nonempty in E.
    + eauto.
Qed.

Lemma called_cons (f : libcall) (e : event) (t : list event) :
  called f (e :: t) = is_call f e || called f t.
Proof. reflexivity. Qed.

Lemma section_3_tukey (L : Libs) (df : list sale) (p : num) (ms : list (string * num)) :
  df <> [] ->
  group_means (groupby_Supermercado df) = inr ms ->
  called TukeyHSD (fst (Main_py.section_3 L df p)) = lt p alpha.
Proof.
  intros Hdf Hms.
  destruct (highest_exists df ms Hdf Hms) as [h [o Hs]].
  unfold Main_py.section_3, print, printf, print_obj.
  rewrite bind_emit. cbn [fst]. rewrite called_cons. cbn [is_call orb].
  destruct df as [|r df]; [contradiction|]. cbn [empty negb].
  rewrite Hms. change (lib (inr ms)) with (ret ms). rewrite bind_ret_l.
  rewrite Hs.
  destruct (lt p alpha) eqn:E.
  - apply called_bind_l. rewrite !bind_emit. cbn [fst].
    rewrite !called_cons. cbn [is_call orb].
    unfold Main_py.post_hoc, print, call. rewrite !bind_emit. reflexivity.
  - reflexivity.
Qed.

Lemma main_tukey (L : Libs) (path name : string) (xls : workbook) (df : list sale) (p : num) :
  ExcelFile L path = inr xls ->
  snd (Main_py.section_1 L xls name) = Ok tt ->
  snd (Main_py.combined_table xls) = Ok df ->
  snd (Main_py.anova L df) = Ok p ->
  df <> [] ->
  (exists ms, group_means (groupby_Supermercado df) = inr ms) ->
  called TukeyHSD (fst (Main_py.analyze_sales_data L path name)) = lt p alpha.
Proof.
  intros Hx H1 H2 H3 Hdf [ms Hms].
  unfold Main_py.analyze_sales_data. rewrite fst_run_function.
  unfold Main_py.body. rewrite Hx. change (lib (inr xls)) with (ret xls).
  rewrite bind_ret_l, (bind_ok _ _ tt H1). cbn [fst].
  pose proof (never_section_1 TukeyHSD L xls name) as N1.
  pose proof (never_combined_table TukeyHSD xls) as N2.
  pose proof (never_tukey_main_anova L df) as N3.
  unfold never in *.
  rewrite called_app, N1. cbn [orb].
  unfold Main_py.sections_2_3, print. rewrite bind_emit. cbn [fst].
  rewrite called_cons. cbn [is_call orb].
  rewrite (bind_ok _ _ df H2). cbn [fst]. rewrite called_app, N2. cbn [orb].
  rewrite (bind_ok _ _ p H3). cbn [fst]. rewrite called_app, N3. cbn [orb].
  now apply section_3_tukey with (ms := ms).
Qed.

Lemma contrast_decision (L : Libs) (model : ols_model) (tbl : anova_table) (p : num) :
  anova_lm L model = inr tbl ->
  snd (Anova_py.p_value_of tbl) = Ok p ->
  snd (Anova_py.contrast L model) = Ok (lt p alpha)
  /\ never TukeyHSD (Anova_py.contrast L model).
Proof.
  intros Ht Hp. unfold Anova_py.contrast, never, print, printf, print_obj, call.
  rewrite !bind_emit, Ht. change (lib (inr tbl)) with (ret tbl).
  rewrite bind_ret_l, bind_emit. cbn [fst snd].
  unfold Anova_py.p_value_of in *.
  destruct (find _ tbl) as [r|]; [|discriminate].
  simpl in Hp. injection Hp as ->. rewrite bind_ret_l.
  destruct (lt p alpha); split; reflexivity.
Qed.

Lemma never_plots (f : libcall) (L : Libs) (df : list sale) :
  f <> KdePlot -> f <> BoxPlot -> never f (Anova_py.plots L df).
Proof.
  intros H1 H2. unfold Anova_py.plots.
  destruct f; try contradiction; never_tac.
Qed.

Lemma anova_tukey (L : Libs) (path : string) (df : list sale) (model : ols_model)
      (tbl : anova_table) (p : num) :
  snd (Anova_py.load L path) = Ok df ->
  snd (Anova_py.check_assumptions L df) = Ok model ->
  snd (Anova_py.plots L df) = Ok tt ->
  anova_lm L model = inr tbl ->
  snd (Anova_py.p_value_of tbl) = Ok p ->
  called TukeyHSD (fst (Anova_py.analisis_anova_completo L path)) = lt p alpha.
Proof.
  intros H1 H2 Hp H3 H4.
  unfold Anova_py.analisis_anova_completo. rewrite fst_run_function.
  unfold Anova_py.body. rewrite (try_except_ok _ _ df H1), (bind_ok _ _ df H1).
  cbn [fst].
  pose proof (never_load TukeyHSD L path) as N1.
  pose proof (never_tukey_check_assumptions L df) as N2.
  assert (N4 : never TukeyHSD (Anova_py.plots L df))
    by (apply never_plots; discriminate).
  destruct (contrast_decision L model tbl p H3 H4) as [Hc N3].
  unfold never in *.
  rewrite called_app, N1. cbn [orb].
  unfold Anova_py.analysis, print, printf. rewrite !bind_emit. cbn [fst].
  rewrite !called_cons. cbn [is_call orb].
  rewrite (bind_ok _ _ model H2). cbn [fst]. rewrite called_app, N2. cbn [orb].
  rewrite (bind_ok _ _ tt Hp). cbn [fst].
  rewrite called_app, N4. cbn [orb].
  rewrite (bind_ok _ _ _ Hc). cbn [fst]. rewrite called_app, N3. cbn [orb].
  unfold Anova_py.post_hoc. destruct (lt p alpha); [|reflexivity].
  unfold print, call. rewrite !bind_emit. reflexivity.
Qed.

(** In a table whose index has no repeated label, the row of the store
    factor is the one the lookup by label finds. *)
Lemma find_factor_row (tbl : anova_table) (row : anova_row) :
  NoDup (map fst tbl) ->
  In ("C(Supermercado)", row) tbl ->
  find (fun r : string * anova_row => String.eqb (fst r) "C(Supermercado)") tbl
  = Some ("C(Supermercado)", row).
Proof.
  induction tbl as [|[i r] tbl IH]; simpl; intros Hnd Hin; [contradiction|].
  inversion Hnd as [|? ? Hni Hnd']; subst.
  destruct (String.eqb i "C(Supermercado)") eqn:E.
  - apply String.eqb_eq in E. subst i. destruct Hin as [Hin|Hin].
    + now injection Hin as ->.
    + elim Hni. now apply (in_map fst) in Hin.
  - destruct Hin as [Hin|Hin]; [|now apply IH].
    injection Hin as -> _. now rewrite String.eqb_refl in E.
Qed.

Lemma main_anova_value (L : Libs) (df : list sale) (model : ols_model)
      (tbl : anova_table) (row : anova_row) :
  ols_fit L df = inr model ->
  anova_lm L model = inr tbl ->
  NoDup (map fst tbl) ->
  In ("C(Supermercado)", row) tbl ->
  snd (Main_py.anova L df) = Ok (PR_F row).
Proof.
  intros Ho Ha Hnd Hin.
  unfold Main_py.anova, Main_py.p_value_of, print, printf, print_obj, call.
  rewrite !bind_emit. cbn [snd]. rewrite Ho. cbn [lib]. rewrite bind_ret_l, bind_emit.
  cbn [snd]. rewrite Ha. cbn [lib]. rewrite bind_ret_l, !bind_emit. cbn [snd].
  rewrite (find_factor_row tbl row Hnd Hin), bind_ret_l. cbn [snd].
  destruct (lt (PR_F row) alpha); reflexivity.
Qed.

Lemma anova_p_value_of (tbl : anova_table) (row : anova_row) :
  NoDup (map fst tbl) ->
  In ("C(Supermercado)", row) tbl ->
  snd (Anova_py.p_value_of tbl) = Ok (PR_F row).
Proof.
  intros Hnd Hin. unfold Anova_py.p_value_of.
  now rewrite (find_factor_row tbl row Hnd Hin).
Qed.

(** [p < alpha] on floats is the strict order of the rationals; NaN is not
    below anything. *)
Lemma lt_alpha_iff (p : num) :
  lt p alpha = true <-> exists q : Q, p = Some q /\ (q < 5 # 100)%Q.
Proof.
  unfold lt, alpha. destruct p as [q|].
  - split.
    + intros H. exists q. split; [reflexivity|]. apply Qlt_alt.
      destruct (q ?= 5 # 100)%Q; try discriminate; reflexivity.
    + intros [q' [Hq H]]. injection Hq as <-.
      assert (H' : (q ?= 5 # 100)%Q = Lt) by (now apply Qlt_alt).
      now rewrite H'.
  - split; [discriminate|]. intros [q [H _]]. discriminate.
Qed.

(** C1: in both functions the Tukey HSD routine is called exactly when the
    p-value of the omnibus ANOVA, that is the PR(>F) entry of the row
    'C(Supermercado)' of the table [anova_lm] returns for the model fitted
    on the loaded table, is a number strictly below 0.05.  The run has to
    get as far as that table: for [analyze_sales_data], the workbook opens,
    section 1 completes and the combined table is built, not empty, with
    numeric sales; for [analisis_anova_completo], the table loads and the
    assumption checks and the plots complete.  A p-value equal to 0.05 does
    not trigger the post-hoc analysis. *)
Theorem post_hoc_iff_significant :
  (forall (L : Libs) (path name : string) (xls : workbook) (df : list sale)
          (model : ols_model) (tbl : anova_table) (row : anova_row),
      ExcelFile L path = inr xls ->
      snd (Main_py.section_1 L xls name) = Ok tt ->
      snd (Main_py.combined_table xls) = Ok df ->
      df <> [] ->
      (exists ms, group_means (groupby_Supermercado df) = inr ms) ->
      ols_fit L df = inr model ->
      anova_lm L model = inr tbl ->
      NoDup (map fst tbl) ->
      In ("C(Supermercado)", row) tbl ->
      (called TukeyHSD (fst (Main_py.analyze_sales_data L path name)) = true
       <-> exists q : Q, PR_F row = Some q /\ (q < 5 # 100)%Q))
  /\ (forall (L : Libs) (path : string) (df : list sale) (model : ols_model)
             (tbl : anova_table) (row : anova_row),
      snd (Anova_py.load L path) = Ok df ->
      snd (Anova_py.check_assumptions L df) = Ok model ->
      snd (Anova_py.plots L df) = Ok tt ->
      anova_lm L model = inr tbl ->
      NoDup (map fst tbl) ->
      In ("C(Supermercado)", row) tbl ->
      (called TukeyHSD (fst (Anova_py.analisis_anova_completo L path)) = true
       <-> exists q : Q, PR_F row = Some q /\ (q < 5 # 100)%Q))
  /\ ~ (exists q : Q, Some (5 # 100)%Q = Some q /\ (q < 5 # 100)%Q).
Proof.
  split; [|split].
  - intros L path name xls df model tbl row Hx H1 H2 Hdf Hms Ho Ha Hnd Hin.
    rewrite (main_tukey L path name xls df (PR_F row) Hx H1 H2
               (main_anova_value L df model tbl row Ho Ha Hnd Hin) Hdf Hms).
    apply lt_alpha_iff.
  - intros L path df model tbl row H1 H2 Hp H3 Hnd Hin.
    rewrite (anova_tukey L path df model tbl (PR_F row) H1 H2 Hp H3
               (anova_p_value_of tbl row Hnd Hin)).
    apply lt_alpha_iff.
  - intros [q [Hq H]]. injection Hq as <-. now apply Qlt_irrefl in H.
Qed.

Lemma post_hoc_iff_significant_witness :
  let factor := fun p => {| sum_sq := NaN; df := NaN; F := NaN; PR_F := p |} in
  let low := Demo.libs (Some (1 # 100)%Q) (Some (2 # 100)%Q) in
  let edge := Demo.libs (Some (5 # 100)%Q) (Some (2 # 100)%Q) in
  (called TukeyHSD (fst (Main_py.analyze_sales_data low "ventas.xlsx" "Santa Ana")) = true
   <-> exists q : Q, PR_F (factor (Some (1 # 100)%Q)) = Some q /\ (q < 5 # 100)%Q)
  /\ (called TukeyHSD (fst (Anova_py.analisis_anova_completo low "ventas.xlsx")) = true
      <-> exists q : Q, PR_F (factor (Some (1 # 100)%Q)) = Some q /\ (q < 5 # 100)%Q)
  /\ (called TukeyHSD (fst (Main_py.analyze_sales_data edge "ventas.xlsx" "Santa Ana")) = true
      <-> exists q : Q, PR_F (factor (Some (5 # 100)%Q)) = Some q /\ (q < 5 # 100)%Q)
  /\ (called TukeyHSD (fst (Anova_py.analisis_anova_completo edge "ventas.xlsx")) = true
      <-> exists q : Q, PR_F (factor (Some (5 # 100)%Q)) = Some q /\ (q < 5 # 100)%Q)
  /\ called TukeyHSD (fst (Main_py.analyze_sales_data low "ventas.xlsx" "Santa Ana")) = true
  /\ called TukeyHSD (fst (Anova_py.analisis_anova_completo low "ventas.xlsx")) = true.
Proof.
  intros factor low edge.
  destruct post_hoc_iff_significant as [Hmain [Hanova _]].
  assert (Hnd : NoDup (map (@fst string anova_row)
                           [("C(Supermercado)", factor NaN); ("Residual", factor NaN)])).
  { simpl. repeat constructor; simpl; intuition discriminate. }
  assert (M : forall p,
             called TukeyHSD (fst (Main_py.analyze_sales_data
                                     (Demo.libs p (Some (2 # 100)%Q))
                                     "ventas.xlsx" "Santa Ana")) = true
             <-> exists q : Q, PR_F (factor p) = Some q /\ (q < 5 # 100)%Q).
  { intros p.
    eapply (Hmain (Demo.libs p (Some (2 # 100)%Q)) "ventas.xlsx" "Santa Ana" Demo.ventas).
    - reflexivity.
    - vm_compute; reflexivity.
    - vm_compute; reflexivity.
    - discriminate.
    - eexists. vm_compute; reflexivity.
    - reflexivity.
    - vm_compute; reflexivity.
    - exact Hnd.
    - left. reflexivity. }
  assert (A : forall p,
             called TukeyHSD (fst (Anova_py.analisis_anova_completo
                                     (Demo.libs p (Some (2 # 100)%Q)) "ventas.xlsx")) = true
             <-> exists q : Q, PR_F (factor p) = Some q /\ (q < 5 # 100)%Q).
  { intros p.
    eapply (Hanova (Demo.libs p (Some (2 # 100)%Q)) "ventas.xlsx").
    - vm_compute; reflexivity.
    - vm_compute; reflexivity.
    - vm_compute; reflexivity.
    - vm_compute; reflexivity.
    - exact Hnd.
    - left. reflexivity. }
  split; [apply M|]. split; [apply A|]. split; [apply M|]. split; [apply A|].
  split.
  - apply M. exists (1 # 100)%Q. split; reflexivity.
  - apply A. exists (1 # 100)%Q. split; reflexivity.
Defined.

(* ------------------------------------------------------------------ *)
(** * The data loader *)

Lemma find_sheet (sheets : list (string * raw_frame)) (s : string * raw_frame) :
  NoDup (map fst sheets) -> In s sheets ->
  find (fun x : string * (exn + raw_frame) => String.eqb (fst x) (fst s)) (readable sheets)
  = Some (fst s, inr (snd s)).
Proof.
  induction sheets as [|a sheets IH]; simpl; intros Hnd Hin; [contradiction|].
  inversion Hnd as [|? ? Hna Hnd']; subst.
  destruct Hin as [->|Hin].
  - now rewrite String.eqb_refl.
  - destruct (String.eqb (fst a) (fst s)) eqn:E.
    + apply String.eqb_eq in E. exfalso. apply Hna. rewrite E.
      now apply in_map.
    + now apply IH.
Qed.

Lemma first_two_firstn (r : list cell) : first_two (firstn 2 r) = first_two r.
Proof. destruct r as [|a [|b r]]; reflexivity. Qed.

Lemma anova_read_sheets_ok (sheets sub : list (string * raw_frame)) :
  NoDup (map fst sheets) ->
  (forall s, In s sub -> In s sheets /\ (2 <= List.length (columns (snd s)))%nat) ->
  Anova_py.read_sheets (readable sheets) (map fst sub) = ret (map sheet_rows sub).
Proof.
  intros Hnd. induction sub as [|s sub IH]; intros H; simpl; [reflexivity|].
  destruct (H s (or_introl eq_refl)) as [Hin Hc].
  unfold read_excel. rewrite (find_sheet sheets s Hnd Hin).
  change (lib (inr (snd s))) with (ret (snd s)). rewrite bind_ret_l.
  unfold iloc_0_1. destruct (Nat.ltb_spec (List.length (columns (snd s))) 2); [lia|].
  cbv iota. rewrite bind_ret_l. unfold set_columns_Fecha_Ventas. cbn [columns rows].
  rewrite length_firstn, Nat.min_l by assumption. cbn [Nat.eqb]. cbv iota.
  rewrite bind_ret_l, IH by (intros; apply H; now right).
  rewrite bind_ret_l. unfold sheet_rows. do 2 f_equal.
  rewrite map_map. f_equal. apply map_ext. intros r. apply first_two_firstn.
Qed.

Lemma main_read_sheets_ok (sheets sub : list (string * raw_frame)) :
  NoDup (map fst sheets) ->
  (forall s, In s sub -> In s sheets /\ List.length (columns (snd s)) = 2%nat) ->
  Main_py.read_sheets (readable sheets) (map fst sub) = ret (map sheet_rows sub).
Proof.
  intros Hnd. induction sub as [|s sub IH]; intros H; simpl; [reflexivity|].
  destruct (H s (or_introl eq_refl)) as [Hin Hc].
  unfold read_excel. rewrite (find_sheet sheets s Hnd Hin).
  change (lib (inr (snd s))) with (ret (snd s)). rewrite bind_ret_l.
  unfold set_columns_Fecha_Ventas. rewrite Hc. cbn [Nat.eqb]. cbv iota.
  rewrite bind_ret_l, IH by (intros; apply H; now right).
  rewrite bind_ret_l. reflexivity.
Qed.

Lemma sheet_names_readable (sheets : list (string * raw_frame)) :
  sheet_names (readable sheets) = map fst sheets.
Proof. unfold sheet_names, readable. rewrite map_map. reflexivity. Qed.

Lemma valid_sheet_rows (s : string * raw_frame) :
  List.length (dropna_Ventas (sheet_rows s)) = valid_rows (snd s).
Proof.
  unfold dropna_Ventas, sheet_rows, set_Supermercado, valid_rows.
  induction (rows (snd s)) as [|r rs IH]; simpl; [reflexivity|].
  destruct (isnull (nth 1 r CNull)); simpl; now rewrite IH.
Qed.

Lemma dropna_app (a b : list sale) : dropna_Ventas (a ++ b) = dropna_Ventas a ++ dropna_Ventas b.
Proof. apply filter_app. Qed.

Lemma valid_count (sheets : list (string * raw_frame)) :
  List.length (dropna_Ventas (List.concat (map sheet_rows sheets)))
  = list_sum (map (fun s => valid_rows (snd s)) sheets).
Proof.
  induction sheets as [|s sheets IH]; simpl; [reflexivity|].
  now rewrite dropna_app, length_app, valid_sheet_rows, IH.
Qed.

Lemma dropna_nothing (df : list sale) : any_null_Ventas df = false -> dropna_Ventas df = df.
Proof.
  unfold any_null_Ventas, dropna_Ventas. induction df as [|r df IH]; simpl; [reflexivity|].
  intros H. apply orb_false_iff in H. destruct H as [H1 H2].
  rewrite H1. simpl. now rewrite IH.
Qed.

Lemma unique_In (x : string) (xs : list string) : In x xs -> In x (unique xs).
Proof.
  induction xs as [|y xs IH]; simpl; [tauto|].
  intros [->|H]; [now left|].
  destruct (String.eqb x y) eqn:E.
  - apply String.eqb_eq in E. now left.
  - right. apply filter_In. split; [now apply IH|]. now rewrite E.
Qed.

Lemma two_distinct_length (a b : string) (xs : list string) :
  a <> b -> In a xs -> In b xs -> (2 <= List.length xs)%nat.
Proof.
  intros Hab Ha Hb. destruct xs as [|x [|y xs]]; simpl in *; try lia; try tauto.
  destruct Ha as [<-|[]], Hb as [<-|[]]. contradiction.
Qed.

Lemma store_of_valid_sheet (s : string * raw_frame) (sheets : list (string * raw_frame)) :
  In s sheets -> (1 <= valid_rows (snd s))%nat ->
  In (fst s) (map Supermercado (List.concat (map sheet_rows sheets))).
Proof.
  intros Hin Hv. apply in_map_iff.
  assert (Hr : exists r, In r (sheet_rows s)).
  { rewrite <- valid_sheet_rows in Hv.
    destruct (dropna_Ventas (sheet_rows s)) as [|r l] eqn:E; [simpl in Hv; lia|].
    exists r. assert (Hi : In r (dropna_Ventas (sheet_rows s))) by (rewrite E; now left).
    unfold dropna_Ventas in Hi. now apply filter_In in Hi. }
  destruct Hr as [r Hr]. exists r. split.
  - unfold sheet_rows, set_Supermercado in Hr. apply in_map_iff in Hr.
    destruct Hr as [c [<- _]]. reflexivity.
  - apply in_concat. exists (sheet_rows s). split; [now apply in_map|assumption].
Qed.

Lemma main_read_sheets_width (sheets sub : list (string * raw_frame)) :
  NoDup (map fst sheets) ->
  (forall s, In s sub -> In s sheets) ->
  (exists s, In s sub /\ List.length (columns (snd s)) <> 2%nat) ->
  Main_py.read_sheets (readable sheets) (map fst sub) = raise ValueError.
Proof.
  intros Hnd. induction sub as [|s sub IH]; intros H [b [Hb Hw]]; [contradiction|].
  simpl. unfold read_excel. rewrite (find_sheet sheets s Hnd (H s (or_introl eq_refl))).
  change (lib (inr (snd s))) with (ret (snd s)). rewrite bind_ret_l.
  unfold set_columns_Fecha_Ventas.
  destruct (Nat.eqb_spec (List.length (columns (snd s))) 2) as [E|E]; [|reflexivity].
  rewrite bind_ret_l, IH; [reflexivity|intros; apply H; now right|].
  destruct Hb as [->|Hb]; [contradiction|]. now exists b.
Qed.

Lemma concat_nonempty (frames : list (list sale)) :
  frames <> [] -> concat frames = ret (List.concat frames).
Proof. destruct frames; [contradiction|reflexivity]. Qed.

(** C4, as amended: [analisis_anova_completo] keeps the first two columns of
    every sheet whatever their headers and whatever columns follow, labels the
    rows with the sheet name, concatenates the sheets and drops the rows whose
    sales are missing; with distinct sheet names, at least one sheet and at
    least two columns per sheet, the loaded table has as many rows as the
    sheets have rows with sales.  [analyze_sales_data] renames the columns
    without selecting them: a sheet whose width is not two raises a
    [ValueError]; with at least two distinctly named sheets of exactly two
    columns, each with a row with sales, its table is the same one and has
    the same number of rows. *)
Theorem loader_row_count :
  (forall (L : Libs) (path : string) (sheets : list (string * raw_frame)),
      ExcelFile L path = inr (readable sheets) ->
      NoDup (map fst sheets) ->
      sheets <> [] ->
      (forall s, In s sheets -> (2 <= List.length (columns (snd s)))%nat) ->
      let df := dropna_Ventas (List.concat (map sheet_rows sheets)) in
      Anova_py.load L path =
        ([EPrint "--- 0. CARGANDO Y PREPARANDO DATOS ---";
          EPrint "Datos cargados correctamente.\n"], Ok df)
      /\ List.length df = list_sum (map (fun s => valid_rows (snd s)) sheets))
  /\ (forall sheets : list (string * raw_frame),
      NoDup (map fst sheets) ->
      (2 <= List.length sheets)%nat ->
      (forall s, In s sheets ->
                 List.length (columns (snd s)) = 2%nat /\ (1 <= valid_rows (snd s))%nat) ->
      let df := dropna_Ventas (List.concat (map sheet_rows sheets)) in
      (exists t, Main_py.combined_table (readable sheets) = (t, Ok df))
      /\ List.length df = list_sum (map (fun s => valid_rows (snd s)) sheets))
  /\ (forall sheets : list (string * raw_frame),
      NoDup (map fst sheets) ->
      (exists s, In s sheets /\ List.length (columns (snd s)) <> 2%nat) ->
      Main_py.combined_table (readable sheets) = ([], Raise ValueError)).
Proof.
  split; [|split].
  - intros L path sheets Hx Hnd Hne Hc df. split; [|apply valid_count].
    unfold Anova_py.load, print. rewrite bind_emit, Hx.
    change (lib (inr (readable sheets))) with (ret (readable sheets)).
    rewrite bind_ret_l, sheet_names_readable.
    rewrite anova_read_sheets_ok by first [assumption | intros; split; auto].
    rewrite bind_ret_l, concat_nonempty by (destruct sheets; [contradiction|discriminate]).
    rewrite bind_ret_l, bind_emit. reflexivity.
  - intros sheets Hnd Hlen Hs df. split; [|apply valid_count].
    unfold Main_py.combined_table. rewrite sheet_names_readable.
    rewrite main_read_sheets_ok
      by first [assumption | intros s Hin; split; [assumption|now apply Hs]].
    rewrite bind_ret_l, concat_nonempty
      by (destruct sheets; [simpl in Hlen; lia|discriminate]).
    rewrite bind_ret_l.
    assert (Hn : (2 <= n_stores (List.concat (map sheet_rows sheets)))%nat).
    { destruct sheets as [|a [|b sheets]]; simpl in Hlen; try lia.
      inversion Hnd as [|? ? Hna _]; subst.
      apply (two_distinct_length (fst a) (fst b)).
      - intros E. apply Hna. rewrite E. now left.
      - apply unique_In, store_of_valid_sheet; [now left|apply Hs; now left].
      - apply unique_In, store_of_valid_sheet; [right; now left|apply Hs; right; now left]. }
    destruct (Nat.ltb_spec (n_stores (List.concat (map sheet_rows sheets))) 2); [lia|].
    destruct (any_null_Ventas (List.concat (map sheet_rows sheets))) eqn:E.
    + unfold print. rewrite bind_emit. fold df.
      assert (Hd : (1 <= List.length df)%nat).
      { unfold df. rewrite valid_count.
        destruct sheets as [|a sheets]; [simpl in Hlen; lia|].
        simpl. assert (1 <= valid_rows (snd a))%nat by (apply Hs; now left). lia. }
      destruct df as [|r df'] eqn:Ed; [simpl in Hd; lia|].
      eexists. reflexivity.
    + unfold df. rewrite (dropna_nothing _ E). eexists. reflexivity.
  - intros sheets Hnd Hbad.
    unfold Main_py.combined_table. rewrite sheet_names_readable.
    rewrite main_read_sheets_width by first [assumption | auto]. reflexivity.
Qed.

Lemma loader_row_count_witness :
  let sheets :=
    [ ("Santa Ana",
        {| columns := ["Fecha"; "Ventas"];
           rows := [ [Demo.day 2024 1 5; CNum 100]; [Demo.day 2024 1 20; CNum 100];
                     [Demo.day 2024 2 3; CNum 80]; [Demo.day 2024 2 10; CNum 120];
                     [Demo.day 2024 3 1; CNum 90] ] |});
      ("Centro",
        {| columns := ["Dia"; "Importe"];
           rows := [ [Demo.day 2024 1 5; CNum 200]; [Demo.day 2024 1 6; CNull];
                     [Demo.day 2024 1 7; CNum 220] ] |}) ] in
  let df := dropna_Ventas (List.concat (map sheet_rows sheets)) in
  readable sheets = Demo.ventas
  /\ List.length df = 7%nat
  /\ (exists t, Main_py.combined_table (readable sheets) = (t, Ok df))
  /\ List.length df = list_sum (map (fun s => valid_rows (snd s)) sheets).
Proof.
  intros sheets df.
  assert (Hnd : NoDup (map fst sheets)).
  { simpl. repeat constructor; simpl; intuition discriminate. }
  assert (Hlen : (2 <= List.length sheets)%nat) by (simpl; lia).
  assert (Hs : forall s, In s sheets ->
                 List.length (columns (snd s)) = 2%nat /\ (1 <= valid_rows (snd s))%nat).
  { intros s [<-|[<-|[]]]; split; vm_compute; try reflexivity; lia. }
  split; [reflexivity|]. split; [reflexivity|].
  exact (proj1 (proj2 loader_row_count) sheets Hnd Hlen Hs).
Defined.

(** C4 as stated fails for [analyze_sales_data]: a sheet with a third column
    is not cut down to its first two columns, the renaming raises a
    [ValueError] and no table is produced; [analisis_anova_completo] loads the
    same workbook. *)
Lemma extra_column_raises_in_main :
  Main_py.analyze_sales_data (Demo.libs NaN NaN) "con_notas.xlsx" "Santa Ana" =
    ([ EPrint "--- 1. Intervalos de Confianza Empíricos para 'Santa Ana' ---";
       EPrintF "La hoja '{santa_ana_sheet_name}' no se encontró en el archivo."
               [AStr "Santa Ana"];
       EPrint "\n";
       EPrint "--- 2. Pruebas ANOVA para Comparar Ventas de Todas las Tiendas ---" ],
     Raised ValueError)
  /\ Main_py.combined_table Demo.con_notas = ([], Raise ValueError)
  /\ snd (Anova_py.load (Demo.libs NaN NaN) "con_notas.xlsx") =
       Ok [ {| Fecha := Demo.day 2024 1 5; Ventas := CNum 10; Supermercado := "Norte" |};
            {| Fecha := Demo.day 2024 1 6; Ventas := CNum 12; Supermercado := "Norte" |};
            {| Fecha := Demo.day 2024 1 5; Ventas := CNum 20; Supermercado := "Sur" |};
            {| Fecha := Demo.day 2024 1 6; Ventas := CNum 22; Supermercado := "Sur" |} ].
Proof. repeat split; vm_compute; reflexivity. Qed.

(* ------------------------------------------------------------------ *)
(** * Fewer than two stores *)

(** Whenever the combined table has fewer than two stores, the table is
    handed on after the message and the model is fitted on it. *)
Lemma few_stores_go_on (L : Libs) (xls : workbook) (frames : list (list sale)) :
  Main_py.read_sheets xls (sheet_names xls) = ret frames ->
  frames <> [] ->
  (n_stores (List.concat frames) < 2)%nat ->
  Main_py.combined_table xls =
    ([EPrint "Se necesitan al menos dos supermercados para realizar ANOVA."],
     Ok (List.concat frames))
  /\ called OlsFit (fst (Main_py.sections_2_3 L xls)) = true.
Proof.
  intros Hr Hne Hn.
  assert (E : Main_py.combined_table xls =
              ([EPrint "Se necesitan al menos dos supermercados para realizar ANOVA."],
               Ok (List.concat frames))).
  { unfold Main_py.combined_table. rewrite Hr, bind_ret_l.
    rewrite (concat_nonempty frames Hne), bind_ret_l.
    destruct (Nat.ltb_spec (n_stores (List.concat frames)) 2); [|lia].
    reflexivity. }
  split; [exact E|].
  unfold Main_py.sections_2_3, print. rewrite bind_emit. cbn [fst].
  rewrite called_cons. cbn [is_call orb].
  rewrite (bind_ok _ _ (List.concat frames)) by (now rewrite E).
  rewrite E. cbn [fst app]. rewrite called_cons. cbn [is_call orb].
  apply called_bind_l.
  unfold Main_py.anova, print, printf, print_obj, call. rewrite !bind_emit. reflexivity.
Qed.

(** C7: with a single store [analyze_sales_data] prints that at least two
    stores are needed and then goes on all the same: the one-way model is
    fitted on the one-store table (line 98) and its ANOVA table is asked for
    (line 99).  With a library that, like statsmodels, cannot compute the
    table of a one-store model, the call ends in that exception: the
    analysis is neither skipped nor spared the crash. *)
Lemma single_store_still_fits :
  let run := Main_py.analyze_sales_data
               (Demo.libs (Some (1 # 100)%Q) (Some (2 # 100)%Q))
               "una_tienda.xlsx" "Santa Ana" in
  n_stores (set_Supermercado "Santa Ana"
              [(Demo.day 2024 1 5, CNum 100); (Demo.day 2024 1 20, CNum 110)]) = 1%nat
  /\ nth_error (fst run) 13 =
       Some (EPrint "Se necesitan al menos dos supermercados para realizar ANOVA.")
  /\ nth_error (fst run) 17 = Some (ECall OlsFit)
  /\ nth_error (fst run) 18 = Some (ECall AnovaLm)
  /\ called OlsFit (fst run) = true
  /\ snd run = Raised ValueError.
Proof. repeat split; vm_compute; reflexivity. Qed.

(* ------------------------------------------------------------------ *)
(** * The assumption tests *)

Lemma but_diagnostics_app (t t' : list event) :
  but_diagnostics (t ++ t') = but_diagnostics t ++ but_diagnostics t'.
Proof. apply filter_app. Qed.

Ltac reduce_trace := cbv -[gt lt alpha diagnostic but_diagnostics].

Lemma check_assumptions_advisory (L : Libs) lev1 sh1 lev2 sh2 (df : list sale) :
  (forall s, alike (lev1 s) (lev2 s)) ->
  (forall r, alike (sh1 r) (sh2 r)) ->
  but_diagnostics (fst (Anova_py.check_assumptions (with_tests L lev1 sh1) df))
  = but_diagnostics (fst (Anova_py.check_assumptions (with_tests L lev2 sh2) df))
  /\ snd (Anova_py.check_assumptions (with_tests L lev1 sh1) df)
     = snd (Anova_py.check_assumptions (with_tests L lev2 sh2) df).
Proof.
  intros Hl Hs. reduce_trace.
  match goal with
  | |- context [lev1 ?s] =>
      specialize (Hl s); destruct (lev1 s) as [e1|[s1 p1]], (lev2 s) as [e2|[s2 p2]]
  end; simpl in Hl; try contradiction.
  { subst. split; vm_compute; reflexivity. }
  match goal with
  | |- context [match ?o with inl _ => _ | inr _ => _ end] => destruct o as [e|model]
  end.
  { destruct (gt p1 alpha), (gt p2 alpha); split; vm_compute; reflexivity. }
  match goal with
  | |- context [sh1 ?r] =>
      specialize (Hs r); destruct (sh1 r) as [e1|[w1 q1]], (sh2 r) as [e2|[w2 q2]]
  end; simpl in Hs; try contradiction.
  { subst. destruct (gt p1 alpha), (gt p2 alpha); split; vm_compute; reflexivity. }
  destruct (gt p1 alpha), (gt p2 alpha), (gt q1 alpha), (gt q2 alpha);
    split; vm_compute; reflexivity.
Qed.

Lemma called_but_diagnostics (f : libcall) (t : list event) :
  called f (but_diagnostics t) = called f t.
Proof.
  induction t as [|e t IH]; simpl; [reflexivity|].
  destruct (diagnostic e) eqn:E; simpl; rewrite IH.
  - destruct e; try discriminate; destruct f; reflexivity.
  - reflexivity.
Qed.

Lemma advisory_bind {A B} (m1 m2 : M A) (k : A -> M B) :
  same_but_diagnostics m1 m2 -> same_but_diagnostics (bind m1 k) (bind m2 k).
Proof.
  unfold same_but_diagnostics.
  destruct m1 as [t1 r1], m2 as [t2 r2]; simpl. intros [Ht <-].
  destruct r1 as [a| |e]; simpl; try (split; [assumption|reflexivity]).
  destruct (k a) as [t r]; simpl.
  rewrite !but_diagnostics_app, Ht. split; reflexivity.
Qed.

Lemma advisory_emit {B} (e : event) (m1 m2 : M B) :
  same_but_diagnostics m1 m2 ->
  same_but_diagnostics (emit e ;; m1) (emit e ;; m2).
Proof.
  unfold same_but_diagnostics. rewrite !bind_emit. cbn [fst snd].
  intros [Ht Hr]. split; [|assumption].
  unfold but_diagnostics in *. cbn [filter]. now rewrite Ht.
Qed.

Lemma run_function_eq (m : M unit) :
  run_function m =
    (fst m, match snd m with Ok _ | Ret => Returned | Raise e => Raised e end).
Proof. destruct m as [t [[]| |e]]; reflexivity. Qed.

Lemma analysis_advisory (L : Libs) lev1 sh1 lev2 sh2 (df : list sale) :
  (forall s, alike (lev1 s) (lev2 s)) ->
  (forall r, alike (sh1 r) (sh2 r)) ->
  same_but_diagnostics (Anova_py.analysis (with_tests L lev1 sh1) df)
                       (Anova_py.analysis (with_tests L lev2 sh2) df).
Proof.
  intros Hl Hs. unfold Anova_py.analysis, print, printf.
  do 4 apply advisory_emit.
  change (fun model : ols_model =>
            Anova_py.plots (with_tests L lev1 sh1) df ;;
            run_post_hoc <- Anova_py.contrast (with_tests L lev1 sh1) model ;;
            Anova_py.post_hoc (with_tests L lev1 sh1) df run_post_hoc)
    with (fun model : ols_model =>
            Anova_py.plots (with_tests L lev2 sh2) df ;;
            run_post_hoc <- Anova_py.contrast (with_tests L lev2 sh2) model ;;
            Anova_py.post_hoc (with_tests L lev2 sh2) df run_post_hoc).
  apply advisory_bind. now apply check_assumptions_advisory.
Qed.

(** C8: the Levene and Shapiro-Wilk tests of [analisis_anova_completo] are
    advisory.  Run the function twice on the same path with the same
    libraries except for the two tests, which may return any statistics and
    p-values (and raise alike): the two traces are equal once the lines that
    report the two tests are left out, so the printed ANOVA table, the
    p-value line, the decision and the post-hoc section are the same, the
    calls end the same way, and the ANOVA and Tukey routines are called in
    the one run exactly when they are in the other. *)
Theorem assumption_tests_advisory (L : Libs) lev1 sh1 lev2 sh2 (path : string) :
  (forall s, alike (lev1 s) (lev2 s)) ->
  (forall r, alike (sh1 r) (sh2 r)) ->
  let run1 := Anova_py.analisis_anova_completo (with_tests L lev1 sh1) path in
  let run2 := Anova_py.analisis_anova_completo (with_tests L lev2 sh2) path in
  but_diagnostics (fst run1) = but_diagnostics (fst run2)
  /\ snd run1 = snd run2
  /\ called AnovaLm (fst run1) = called AnovaLm (fst run2)
  /\ called TukeyHSD (fst run1) = called TukeyHSD (fst run2).
Proof.
  intros Hl Hs run1 run2.
  assert (H : but_diagnostics (fst run1) = but_diagnostics (fst run2)
              /\ snd run1 = snd run2).
  { unfold run1, run2, Anova_py.analisis_anova_completo.
    rewrite !run_function_eq. cbn [fst snd].
    assert (B : same_but_diagnostics (Anova_py.body (with_tests L lev1 sh1) path)
                                     (Anova_py.body (with_tests L lev2 sh2) path)).
    { unfold Anova_py.body.
      change (Anova_py.load (with_tests L lev1 sh1) path) with (Anova_py.load L path).
      change (Anova_py.load (with_tests L lev2 sh2) path) with (Anova_py.load L path).
      destruct (load_cases L path) as [[df E]|[e E]]; rewrite E.
      - cbn [try_except].
        rewrite !(bind_ok (_, Ok df) _ df eq_refl). cbn [fst].
        destruct (analysis_advisory L lev1 sh1 lev2 sh2 df Hl Hs) as [H1 H2].
        split; cbn [fst snd]; [|assumption].
        rewrite !but_diagnostics_app. now rewrite H1.
      - assert (R : snd (try_except
                           ([EPrint "--- 0. CARGANDO Y PREPARANDO DATOS ---"], Raise e)
                           (Anova_py.on_error path)) = Ret) by (destruct e; reflexivity).
        rewrite !(bind_ret _ _ R). split; reflexivity. }
    destruct B as [B1 B2]. rewrite B1, B2. split; reflexivity. }
  destruct H as [H1 H2]. repeat split; try assumption.
  - rewrite <- (called_but_diagnostics AnovaLm (fst run1)), H1.
    apply called_but_diagnostics.
  - rewrite <- (called_but_diagnostics TukeyHSD (fst run1)), H1.
    apply called_but_diagnostics.
Qed.

Lemma assumption_tests_advisory_witness :
  let L := Demo.libs (Some (1 # 100)%Q) (Some (2 # 100)%Q) in
  let holds := fun _ : list (list cell) => @inr exn _ (Some 1%Q, Some (30 # 100)%Q) in
  let fails := fun _ : list (list cell) => @inr exn _ (Some 9%Q, Some (1 # 1000)%Q) in
  let normal := fun _ : list num => @inr exn _ (Some 1%Q, Some (40 # 100)%Q) in
  let skewed := fun _ : list num => @inr exn _ (Some 0%Q, NaN) in
  let run1 := Anova_py.analisis_anova_completo (with_tests L holds normal) "ventas.xlsx" in
  let run2 := Anova_py.analisis_anova_completo (with_tests L fails skewed) "ventas.xlsx" in
  but_diagnostics (fst run1) = but_diagnostics (fst run2)
  /\ snd run1 = snd run2
  /\ called AnovaLm (fst run1) = called AnovaLm (fst run2)
  /\ called TukeyHSD (fst run1) = called TukeyHSD (fst run2).
Proof.
  intros L holds fails normal skewed.
  apply (assumption_tests_advisory L holds normal fails skewed "ventas.xlsx").
  - intros s. exact I.
  - intros r. exact I.
Defined.

(* ------------------------------------------------------------------ *)
(** * Further properties of the two functions *)

Lemma dropna_no_null (df : list sale) : any_null_Ventas (dropna_Ventas df) = false.
Proof.
  unfold any_null_Ventas, dropna_Ventas. induction df as [|r df IH]; simpl; [reflexivity|].
  destruct (isnull (Ventas r)) eqn:E; simpl; [assumption|]. now rewrite E.
Qed.

Lemma any_null_of_dropna_shorter (df : list sale) :
  dropna_Ventas df <> df -> any_null_Ventas df = true.
Proof.
  intros H. destruct (any_null_Ventas df) eqn:E; [reflexivity|].
  elim H. now apply dropna_nothing.
Qed.

(** With two or more stores and every sale missing, sections 2 and 3 of
    [analyze_sales_data] stop after the warning and the no-data line: the
    function returns, and neither the model is fitted nor section 3 entered. *)
Theorem all_sales_missing_returns (L : Libs) (xls : workbook) (frames : list (list sale)) :
  Main_py.read_sheets xls (sheet_names xls) = ret frames ->
  (2 <= n_stores (List.concat frames))%nat ->
  dropna_Ventas (List.concat frames) = [] ->
  run_function (Main_py.sections_2_3 L xls) =
    ([ EPrint "--- 2. Pruebas ANOVA para Comparar Ventas de Todas las Tiendas ---";
       EPrint "Advertencia: Se encontraron valores nulos en las ventas. Eliminándolos para ANOVA.";
       EPrint "No quedan datos después de eliminar los nulos. No se puede realizar ANOVA." ],
     Returned).
Proof.
  intros Hr Hn Hd.
  assert (Hne : List.concat frames <> []).
  { intros E. rewrite E in Hn. unfold n_stores in Hn. simpl in Hn. lia. }
  assert (Hf : frames <> []) by (intros ->; now apply Hne).
  assert (Hnull : any_null_Ventas (List.concat frames) = true).
  { apply any_null_of_dropna_shorter. rewrite Hd. intros E. now apply Hne. }
  unfold Main_py.sections_2_3, Main_py.combined_table, print.
  rewrite bind_emit, Hr, bind_ret_l, (concat_nonempty frames Hf), bind_ret_l.
  destruct (Nat.ltb_spec (n_stores (List.concat frames)) 2); [lia|].
  rewrite Hnull, Hd. reflexivity.
Qed.

Lemma all_sales_missing_returns_witness :
  let xls : workbook :=
    [ ("Norte", inr {| columns := ["Fecha"; "Ventas"];
                       rows := [ [Demo.day 2024 1 5; CNull] ] |});
      ("Sur", inr {| columns := ["Fecha"; "Ventas"];
                     rows := [ [Demo.day 2024 1 5; CNull]; [CNull; CNull] ] |}) ] in
  run_function (Main_py.sections_2_3 (Demo.libs NaN NaN) xls) =
    ([ EPrint "--- 2. Pruebas ANOVA para Comparar Ventas de Todas las Tiendas ---";
       EPrint "Advertencia: Se encontraron valores nulos en las ventas. Eliminándolos para ANOVA.";
       EPrint "No quedan datos después de eliminar los nulos. No se puede realizar ANOVA." ],
     Returned).
Proof.
  intros xls.
  eapply (all_sales_missing_returns (Demo.libs NaN NaN) xls).
  - vm_compute; reflexivity.
  - vm_compute; lia.
  - vm_compute; reflexivity.
Defined.

(** Whenever the table that [analyze_sales_data] hands to the ANOVA holds
    two or more stores, it has no missing sale and is not empty. *)
Theorem anova_table_input_clean (xls : workbook) (t : list event) (df : list sale) :
  Main_py.combined_table xls = (t, Ok df) ->
  (2 <= n_stores df)%nat ->
  any_null_Ventas df = false /\ df <> [].
Proof.
  unfold Main_py.combined_table. intros H Hn.
  assert (Hdf : df <> []) by (intros ->; unfold n_stores in Hn; simpl in Hn; lia).
  split; [|assumption].
  destruct (quiet_main_read_sheets xls (sheet_names xls)) as [Q1 Q2].
  destruct (Main_py.read_sheets xls (sheet_names xls)) as [t0 [frames| |e]];
    simpl in Q1, Q2; subst; try contradiction; try discriminate.
  rewrite (bind_ok ([], Ok frames) _ frames eq_refl) in H. cbn [fst app] in H.
  destruct frames as [|f frames]; [discriminate|].
  change (concat (f :: frames)) with (ret (List.concat (f :: frames))) in H.
  rewrite bind_ret_l in H.
  remember (List.concat (f :: frames)) as all eqn:Hall. clear Hall.
  destruct (n_stores all <? 2)%nat eqn:E.
  - injection H as _ <-. apply Nat.ltb_lt in E. lia.
  - destruct (any_null_Ventas all) eqn:E2.
    + unfold print in H. rewrite bind_emit in H. cbn [fst snd] in H.
      destruct (dropna_Ventas all) eqn:E3; [discriminate|].
      injection H as _ <-. rewrite <- E3. apply dropna_no_null.
    + injection H as _ <-. assumption.
Qed.

(** When no row of the Tukey table is on the two extreme stores, in either
    order, the post-hoc part prints the table and the two not-found lines,
    no mean difference and no verdict, and goes on. *)
Theorem pair_not_found (L : Libs) (df_all_sales : list sale) (tukey_df : tukey_table)
        (hi lo : string) :
  pairwise_tukeyhsd L df_all_sales (Some (5 # 100)%Q) = inr tukey_df ->
  (forall r, In r tukey_df ->
             ~ ((group1 r = hi /\ group2 r = lo) \/ (group1 r = lo /\ group2 r = hi))) ->
  Main_py.post_hoc L df_all_sales hi lo =
    ([ EPrint "\nRealizando prueba de Tukey HSD (Post-hoc ANOVA) para comparaciones pareadas:";
       ECall TukeyHSD;
       EPrintObj (OTukey tukey_df);
       EPrintF "No se encontró una comparación directa entre '{supermarket_highest_sales}' y '{supermarket_lowest_sales}' en los resultados de Tukey HSD."
               [AStr hi; AStr lo];
       EPrint "Esto es inusual si ambas tiendas están en el dataset. Verifique los nombres." ],
     Ok tt).
Proof.
  intros Ht Hno.
  assert (Hs : Main_py.specific_comparison tukey_df hi lo = []).
  { destruct (Main_py.specific_comparison tukey_df hi lo) as [|r rest] eqn:E; [reflexivity|].
    assert (Hin : In r (Main_py.specific_comparison tukey_df hi lo))
      by (rewrite E; now left).
    apply specific_comparison_In in Hin. destruct Hin as [Hin Hp].
    elim (Hno r Hin Hp). }
  unfold Main_py.post_hoc, print, printf, call, print_obj.
  rewrite Ht, !bind_emit. cbn [fst snd lib].
  rewrite bind_ret_l, bind_emit. cbn [fst snd]. rewrite Hs. reflexivity.
Qed.

Lemma pair_not_found_witness :
  let L := Demo.libs (Some (1 # 100)%Q) (Some (2 # 100)%Q) in
  let df := set_Supermercado "Santa Ana" [(CNull, CNum 98); (CNull, CNum 100)] in
  Main_py.post_hoc L df "Santa Ana" "Santa Ana" =
    ([ EPrint "\nRealizando prueba de Tukey HSD (Post-hoc ANOVA) para comparaciones pareadas:";
       ECall TukeyHSD;
       EPrintObj (OTukey []);
       EPrintF "No se encontró una comparación directa entre '{supermarket_highest_sales}' y '{supermarket_lowest_sales}' en los resultados de Tukey HSD."
               [AStr "Santa Ana"; AStr "Santa Ana"];
       EPrint "Esto es inusual si ambas tiendas están en el dataset. Verifique los nombres." ],
     Ok tt).
Proof.
  intros L df.
  apply (pair_not_found L df [] "Santa Ana" "Santa Ana").
  - vm_compute; reflexivity.
  - intros r [].
Defined.

(** When the pair is in the Tukey table, the post-hoc part prints the
    comparison header, the mean difference and the adjusted p-value of the
    first matching row, and then the verdict: significant exactly when that
    p-value is strictly below 0.05 (so not for a NaN), and never the
    not-found lines. *)
Theorem pair_found_report (L : Libs) (df_all_sales : list sale) (tukey_df : tukey_table)
        (hi lo : string) (first : tukey_row) (rest : tukey_table) :
  pairwise_tukeyhsd L df_all_sales (Some (5 # 100)%Q) = inr tukey_df ->
  Main_py.specific_comparison tukey_df hi lo = first :: rest ->
  Main_py.post_hoc L df_all_sales hi lo =
    ([ EPrint "\nRealizando prueba de Tukey HSD (Post-hoc ANOVA) para comparaciones pareadas:";
       ECall TukeyHSD;
       EPrintObj (OTukey tukey_df);
       EPrintF "\nComparación específica entre '{supermarket_highest_sales}' y '{supermarket_lowest_sales}':"
               [AStr hi; AStr lo];
       EPrintF "  Diferencia de medias: ${mean_diff_tukey:,.2f}"
               [ANum (Main_py.reported_mean_diff first lo)];
       EPrintF "  P-value (Tukey HSD): {p_value_tukey:.4f}" [ANum (p_adj first)] ]
     ++ (if lt (p_adj first) alpha then
           [ EPrint "La diferencia entre las ventas de la tienda con mayor y menor promedio es estadísticamente significativa.";
             EPrintF "Esto sugiere que '{supermarket_lowest_sales}' realmente tiene ventas peores y podría necesitar más atención."
                     [AStr lo] ]
         else
           [ EPrint "La diferencia entre las ventas de la tienda con mayor y menor promedio NO es estadísticamente significativa.";
             EPrint "Las diferencias observadas podrían ser debidas al azar." ]),
     Ok tt).
Proof.
  intros Ht Hs.
  unfold Main_py.post_hoc, print, printf, call, print_obj.
  rewrite Ht, !bind_emit. cbn [fst snd lib].
  rewrite bind_ret_l, bind_emit. cbn [fst snd]. rewrite Hs.
  destruct (lt (p_adj first) alpha); reflexivity.
Qed.

Lemma pair_found_report_witness :
  let L := Demo.libs (Some (1 # 100)%Q) NaN in
  let df := dropna_Ventas
              (set_Supermercado "Santa Ana" [(CNull, CNum 98)]
               ++ set_Supermercado "Centro" [(CNull, CNum 210)]) in
  exists t, Main_py.post_hoc L df "Centro" "Santa Ana" = (t, Ok tt)
            /\ In (EPrint "La diferencia entre las ventas de la tienda con mayor y menor promedio NO es estadísticamente significativa.") t.
Proof.
  intros L df. eexists. split.
  - eapply (pair_found_report L df _ "Centro" "Santa Ana").
    + vm_compute; reflexivity.
    + vm_compute; reflexivity.
  - vm_compute. auto 10.
Defined.

(** The printed difference does not depend on the order in which the engine
    stores the pair: a row (highest, lowest) with difference [d] and a row
    (lowest, highest) with difference [-d] are both found and print the same
    value. *)
Theorem reported_difference_order_free (hi lo : string) (r1 r2 : tukey_row) (d : Q) :
  hi <> lo ->
  group1 r1 = hi -> group2 r1 = lo -> meandiff r1 = Some d ->
  group1 r2 = lo -> group2 r2 = hi -> meandiff r2 = Some (- d)%Q ->
  Main_py.specific_comparison [r1] hi lo = [r1]
  /\ Main_py.specific_comparison [r2] hi lo = [r2]
  /\ exists x y : Q,
      Main_py.reported_mean_diff r1 lo = Some x
      /\ Main_py.reported_mean_diff r2 lo = Some y
      /\ (x == y)%Q.
Proof.
  intros Hne A1 A2 A3 B1 B2 B3.
  unfold Main_py.specific_comparison, Main_py.reported_mean_diff. simpl.
  rewrite A1, A2, A3, B1, B2, B3, !String.eqb_refl.
  apply String.eqb_neq in Hne. rewrite Hne. simpl.
  split; [reflexivity|]. split; [now rewrite orb_true_r|].
  do 2 eexists. split; [reflexivity|]. split; [reflexivity|]. ring.
Qed.

Lemma reported_difference_order_free_witness :
  let r1 := {| group1 := "Centro"; group2 := "Santa Ana"; meandiff := Some (-112 # 1)%Q;
               p_adj := NaN; lower := NaN; upper := NaN; reject := false |} in
  let r2 := {| group1 := "Santa Ana"; group2 := "Centro"; meandiff := Some (- (-112 # 1))%Q;
               p_adj := NaN; lower := NaN; upper := NaN; reject := false |} in
  exists x y : Q,
    Main_py.reported_mean_diff r1 "Santa Ana" = Some x
    /\ Main_py.reported_mean_diff r2 "Santa Ana" = Some y
    /\ (x == y)%Q.
Proof.
  intros r1 r2.
  refine (proj2 (proj2 (reported_difference_order_free "Centro" "Santa Ana" r1 r2
                          (-112 # 1)%Q _ eq_refl eq_refl eq_refl eq_refl eq_refl eq_refl))).
  discriminate.
Defined.

Section Nesting.

Variable L : Libs.
Hypothesis np_sqrt_nonneg : forall x : Q, (0 <= x -> 0 <= np_sqrt L x)%Q.
Hypothesis np_sqrt_pos : forall x : Q, (0 < x -> 0 < np_sqrt L x)%Q.
Hypothesis t_ppf_levels :
  forall d : Z, 1 <= d -> (t_ppf L (975 # 1000) d <= t_ppf L (995 # 1000) d)%Q.

(** For every month that gets intervals the 95% interval lies inside the 99%
    one: the lower bound at 99% is not above the one at 95%, and the upper
    bound at 95% is not above the one at 99%. *)
Theorem intervals_nested (g : period * list Q) (ci : Main_py.intervals) :
  Main_py.confidence_intervals L (agg L g) = Some ci ->
  exists l95 u95 l99 u99 : Q,
    Main_py.lower_95 ci = Some l95 /\ Main_py.upper_95 ci = Some u95
    /\ Main_py.lower_99 ci = Some l99 /\ Main_py.upper_99 ci = Some u99
    /\ (l99 <= l95)%Q /\ (u95 <= u99)%Q.
Proof.
  unfold Main_py.confidence_intervals, agg. destruct g as [p vs]. simpl.
  destruct (1 <? Pandas.count vs) eqn:Hn; simpl; [|discriminate].
  apply Z.ltb_lt in Hn.
  destruct (std_nonneg L np_sqrt_nonneg vs Hn) as [m [s [Hm [Hs Hs0]]]].
  rewrite Hm, Hs. simpl.
  assert (Hr : (0 < np_sqrt L (inject_Z (Pandas.count vs)))%Q).
  { apply np_sqrt_pos. change 0%Q with (inject_Z 0). rewrite <- Zlt_Qlt. lia. }
  destruct (Qeq_bool (np_sqrt L (inject_Z (Pandas.count vs))) 0) eqn:E.
  { apply Qeq_bool_iff in E. rewrite E in Hr. now apply Qlt_irrefl in Hr. }
  intros H. injection H as <-. simpl.
  do 4 eexists. repeat (split; [reflexivity|]).
  set (se := (s / np_sqrt L (inject_Z (Pandas.count vs)))%Q).
  assert (Hse : (0 <= se)%Q).
  { unfold se. apply Qle_shift_div_l; [assumption|]. now rewrite Qmult_0_l. }
  assert (Ht := t_ppf_levels (Pandas.count vs - 1) ltac:(lia)).
  assert (Hm95 := Qmult_le_compat_r _ _ se Ht Hse).
  split; lra.
Qed.

End Nesting.

Lemma intervals_nested_witness :
  exists l95 u95 l99 u99 : Q,
    Some (-6975349776000 # 45248000000)%Q = Some l95
    /\ Some (16024949776000 # 45248000000)%Q = Some u95
    /\ Some (-53090896072000 # 45248000000)%Q = Some l99
    /\ Some (62140496072000 # 45248000000)%Q = Some u99
    /\ (l99 <= l95)%Q /\ (u95 <= u99)%Q.
Proof.
  exact (intervals_nested (Demo.libs NaN NaN) sqrt3_nonneg sqrt3_pos t_table_levels
           ({| p_year := 2024; p_month := 2 |}, [80; 120]%Q) _ eq_refl).
Defined.

Lemma report_month_shape (L : Libs) (row : month_row) :
  snd (Main_py.report_month L row) = Ok tt
  /\ List.length (filter is_separator (fst (Main_py.report_month L row))) = 1%nat.
Proof.
  unfold Main_py.report_month.
  destruct (Main_py.confidence_intervals L row); split; reflexivity.
Qed.

(** The loop over the months never raises and never stops early, and prints
    exactly one separator line per month, whether the month gets intervals
    or the insufficient-data line. *)
Theorem months_reported_once (L : Libs) (monthly_sales : list month_row) :
  snd (for_each monthly_sales (Main_py.report_month L)) = Ok tt
  /\ List.length (filter is_separator
                    (fst (for_each monthly_sales (Main_py.report_month L))))
     = List.length monthly_sales.
Proof.
  induction monthly_sales as [|row rows [IH1 IH2]]; simpl; [split; reflexivity|].
  destruct (report_month_shape L row) as [H1 H2].
  rewrite (bind_ok _ _ tt H1). cbn [fst snd].
  split; [assumption|].
  rewrite filter_app, length_app, H2, IH2. reflexivity.
Qed.

Lemma unique_subset (x : string) (xs : list string) : In x (unique xs) -> In x xs.
Proof.
  induction xs as [|y xs IH]; simpl; [tauto|].
  intros [->|H]; [now left|]. apply filter_In in H. right. now apply IH.
Qed.

(** [unique] lists every label of the table once. *)
Theorem unique_distinct (xs : list string) :
  NoDup (unique xs) /\ forall x, In x (unique xs) <-> In x xs.
Proof.
  split.
  - induction xs as [|y xs IH]; simpl; constructor.
    + intros H. apply filter_In in H. destruct H as [_ H].
      now rewrite String.eqb_refl in H.
    + now apply NoDup_filter.
  - intros x. split; [apply unique_subset|apply unique_In].
Qed.

Lemma load_ok_trace (L : Libs) (path : string) (df : list sale) :
  snd (Anova_py.load L path) = Ok df ->
  Anova_py.load L path =
    ([EPrint "--- 0. CARGANDO Y PREPARANDO DATOS ---";
      EPrint "Datos cargados correctamente.\n"], Ok df).
Proof.
  intros H. destruct (load_cases L path) as [[df' E]|[e E]]; rewrite E in *; simpl in H.
  - now injection H as ->.
  - discriminate.
Qed.

Lemma body_after_load (L : Libs) (path : string) (df : list sale) :
  snd (Anova_py.load L path) = Ok df ->
  Anova_py.analisis_anova_completo L path =
    run_function
      (EPrint "--- 0. CARGANDO Y PREPARANDO DATOS ---"
         :: EPrint "Datos cargados correctamente.\n"
         :: fst (Anova_py.analysis L df),
       snd (Anova_py.analysis L df)).
Proof.
  intros H. unfold Anova_py.analisis_anova_completo, Anova_py.body.
  rewrite (load_ok_trace L path df H). cbn [try_except].
  rewrite (bind_ok (_, Ok df) _ df eq_refl). reflexivity.
Qed.

(** The [try] of [analisis_anova_completo] covers loading only: an exception
    of Levene's test leaves the function, after the lines printed so far, and
    nothing is plotted or computed after it. *)
Theorem levene_exception_propagates (L : Libs) (path : string) (df : list sale) (e : exn) :
  snd (Anova_py.load L path) = Ok df ->
  levene L (map snd (groupby_Supermercado df)) = inl e ->
  Anova_py.analisis_anova_completo L path =
    (anova_preamble ++
     [ EPrint "--- 2. VERIFICACIÓN DE REQUISITOS DEL ANOVA ---";
       EPrint "a) Independencia: Se asume que las observaciones son independientes por el diseño del estudio.";
       EPrint "\nb) Prueba de Homogeneidad de Varianzas (Levene):";
       ECall Levene ],
     Raised e).
Proof.
  intros Hl He. rewrite (body_after_load L path df Hl).
  unfold Anova_py.analysis, Anova_py.check_assumptions, print, printf, call.
  rewrite He. reflexivity.
Qed.

Lemma levene_exception_propagates_witness :
  let L := with_tests (Demo.libs NaN NaN) (fun _ => inl ValueError)
                      (fun _ => inl OtherException) in
  snd (Anova_py.analisis_anova_completo L "una_tienda.xlsx") = Raised ValueError.
Proof.
  intros L.
  rewrite (levene_exception_propagates L "una_tienda.xlsx" _ ValueError eq_refl eq_refl).
  reflexivity.
Defined.

Lemma no_savefig_bind {A B} (m : M A) (k : A -> M B) :
  no_savefig m -> (forall a, no_savefig (k a)) -> no_savefig (bind m k).
Proof.
  unfold no_savefig. destruct m as [t [a| |e]]; simpl; intros Hm Hk; try assumption.
  specialize (Hk a). destruct (k a) as [t' r]; simpl in *.
  now rewrite filter_app, Hm, Hk.
Qed.

Lemma no_savefig_emit (e : event) : is_savefig e = false -> no_savefig (emit e).
Proof. unfold no_savefig; simpl. now intros ->. Qed.

Ltac no_savefig_tac :=
  unfold print, printf, print_obj, call;
  repeat first
    [ apply no_savefig_bind; [|intros]
    | apply no_savefig_emit; reflexivity
    | solve [reflexivity]
    | match goal with
      | |- no_savefig (lib ?r) => destruct r
      | |- no_savefig (if ?c then _ else _) => destruct c
      | |- no_savefig (match ?x with _ => _ end) => destruct x
      end ].

Lemma no_savefig_check_assumptions (L : Libs) (df : list sale) :
  no_savefig (Anova_py.check_assumptions L df).
Proof. unfold Anova_py.check_assumptions. no_savefig_tac. Qed.

Lemma no_savefig_contrast (L : Libs) (model : ols_model) :
  no_savefig (Anova_py.contrast L model).
Proof. unfold Anova_py.contrast, Anova_py.p_value_of. no_savefig_tac. Qed.

Lemma no_savefig_post_hoc (L : Libs) (df : list sale) (b : bool) :
  no_savefig (Anova_py.post_hoc L df b).
Proof. unfold Anova_py.post_hoc. no_savefig_tac. Qed.

Lemma analysis_after_checks (L : Libs) (df : list sale) (model : ols_model) :
  snd (Anova_py.check_assumptions L df) = Ok model ->
  snd (Anova_py.plots L df) = Ok tt ->
  Anova_py.analysis L df =
    bind ([ EPrint "--- 1. PLANTEAMIENTO DEL ANÁLISIS ANOVA ---";
            EPrint "H_0: Las medias de ventas de todos los supermercados son iguales.";
            EPrint "H_1: Al menos una media de ventas es diferente.";
            EPrintF "Nivel de significancia alpha = {alpha}\n" [ANum alpha] ]
          ++ fst (Anova_py.check_assumptions L df)
          ++ fst (Anova_py.plots L df), Ok tt)
         (fun _ => run_post_hoc <- Anova_py.contrast L model ;;
                   Anova_py.post_hoc L df run_post_hoc).
Proof.
  intros Hc Hp. unfold Anova_py.analysis, print, printf.
  rewrite !bind_emit. cbn [fst snd].
  rewrite (bind_ok _ _ model Hc). cbn [fst snd].
  rewrite (bind_ok _ _ tt Hp). cbn [fst snd].
  destruct (run_post_hoc <- Anova_py.contrast L model ;;
            Anova_py.post_hoc L df run_post_hoc) as [t r].
  cbn [bind fst snd app]. rewrite <- !app_assoc. reflexivity.
Qed.

Lemma filter_bind {A B} (P : event -> bool) (m : M A) (k : A -> M B) :
  filter P (fst (bind m k)) =
    filter P (fst m) ++ match snd m with
                        | Ok a => filter P (fst (k a))
                        | _ => []
                        end.
Proof.
  destruct m as [t [a| |e]]; simpl; try now rewrite app_nil_r.
  destruct (k a) as [t' r]; simpl. apply filter_app.
Qed.

(** The figures a run of the plots saves: none, the density plot, or the
    density plot and then the box plot; both when no call raises. *)
Lemma plots_figures (L : Libs) (df : list sale) :
  (filter is_savefig (fst (Anova_py.plots L df)) = []
   \/ filter is_savefig (fst (Anova_py.plots L df)) =
        [ESaveFig "grafico_densidad_ventas.png"]
   \/ filter is_savefig (fst (Anova_py.plots L df)) =
        [ESaveFig "grafico_densidad_ventas.png"; ESaveFig "boxplot_ventas.png"])
  /\ (snd (Anova_py.plots L df) = Ok tt ->
      filter is_savefig (fst (Anova_py.plots L df)) =
        [ESaveFig "grafico_densidad_ventas.png"; ESaveFig "boxplot_ventas.png"]).
Proof.
  unfold Anova_py.plots, print, call.
  destruct (pyplot L Plt_figure) as [?|[]];
    [split; [left; reflexivity|discriminate]|].
  destruct (pyplot L (Sns_kdeplot df)) as [?|[]];
    [split; [left; reflexivity|discriminate]|].
  destruct (pyplot L (Plt_title _)) as [?|[]];
    [split; [left; reflexivity|discriminate]|].
  destruct (pyplot L (Plt_savefig "grafico_densidad_ventas.png")) as [?|[]];
    [split; [left; reflexivity|discriminate]|].
  destruct (pyplot L Plt_close) as [?|[]];
    [split; [right; left; reflexivity|discriminate]|].
  destruct (pyplot L (Sns_boxplot df)) as [?|[]];
    [split; [right; left; reflexivity|discriminate]|].
  destruct (pyplot L (Plt_title _)) as [?|[]];
    [split; [right; left; reflexivity|discriminate]|].
  destruct (pyplot L (Plt_savefig "boxplot_ventas.png")) as [?|[]];
    [split; [right; left; reflexivity|discriminate]|].
  split; [right; right; reflexivity|reflexivity].
Qed.

Lemma no_savefig_load (L : Libs) (path : string) : no_savefig (Anova_py.load L path).
Proof.
  unfold no_savefig.
  destruct (load_cases L path) as [[df E]|[e E]]; rewrite E; reflexivity.
Qed.

(** A run of [analisis_anova_completo] saves no other file than the two
    figures, and the box plot only after the density plot; once the table is
    loaded and the assumption checks and the plots have completed, both are
    saved, whatever the ANOVA and the post-hoc analysis do afterwards. *)
Theorem figures_saved_once (L : Libs) (path : string) :
  let saved := filter is_savefig (fst (Anova_py.analisis_anova_completo L path)) in
  (saved = []
   \/ saved = [ESaveFig "grafico_densidad_ventas.png"]
   \/ saved = [ESaveFig "grafico_densidad_ventas.png"; ESaveFig "boxplot_ventas.png"])
  /\ (forall (df : list sale) (model : ols_model),
        snd (Anova_py.load L path) = Ok df ->
        snd (Anova_py.check_assumptions L df) = Ok model ->
        snd (Anova_py.plots L df) = Ok tt ->
        saved = [ESaveFig "grafico_densidad_ventas.png"; ESaveFig "boxplot_ventas.png"]).
Proof.
  intros saved.
  assert (E : saved =
    match snd (Anova_py.load L path) with
    | Ok df =>
        match snd (Anova_py.check_assumptions L df) with
        | Ok model => filter is_savefig (fst (Anova_py.plots L df))
        | _ => []
        end
    | _ => []
    end).
  { unfold saved, Anova_py.analisis_anova_completo. rewrite fst_run_function.
    unfold Anova_py.body.
    destruct (load_cases L path) as [[df E]|[e E]]; rewrite E; cbn [snd].
    - cbn [try_except]. rewrite filter_bind. cbn [fst snd filter is_savefig app].
      unfold Anova_py.analysis, print, printf.
      rewrite !filter_bind. cbn [emit fst snd filter is_savefig app].
      pose proof (no_savefig_check_assumptions L df) as S. unfold no_savefig in S.
      rewrite S. cbn [app].
      destruct (snd (Anova_py.check_assumptions L df)) as [model| |e]; try reflexivity.
      rewrite filter_bind.
      destruct (snd (Anova_py.plots L df)) as [[]| |e]; try apply app_nil_r.
      rewrite filter_bind.
      pose proof (no_savefig_contrast L model) as S2. unfold no_savefig in S2.
      rewrite S2. cbn [app].
      destruct (snd (Anova_py.contrast L model)) as [b| |e];
        try apply app_nil_r.
      pose proof (no_savefig_post_hoc L df b) as S3. unfold no_savefig in S3.
      rewrite S3. apply app_nil_r.
    - destruct e; reflexivity. }
  rewrite E. split.
  - destruct (snd (Anova_py.load L path)) as [df| |e]; auto.
    destruct (snd (Anova_py.check_assumptions L df)) as [model| |e]; auto.
    apply plots_figures.
  - intros df model Hl Hc Hp. rewrite Hl, Hc. now apply plots_figures.
Qed.

Lemma plots_cases (L : Libs) (df : list sale) :
  snd (Anova_py.plots L df) = Ok tt \/ exists e, snd (Anova_py.plots L df) = Raise e.
Proof.
  unfold Anova_py.plots, print, call.
  repeat match goal with
         | |- context [pyplot L ?c] =>
             destruct (pyplot L c) as [?|[]]; [right; eexists; reflexivity|]
         end.
  left. reflexivity.
Qed.

(** If the ANOVA table has no row for the store factor, a run that has
    loaded the table and completed the assumption checks raises, and the
    Tukey routine is not called: once the plots are made, the lookup of the
    p-value raises a [KeyError] that leaves [analisis_anova_completo]. *)
Theorem missing_factor_raises (L : Libs) (path : string) (df : list sale)
        (model : ols_model) (tbl : anova_table) :
  snd (Anova_py.load L path) = Ok df ->
  snd (Anova_py.check_assumptions L df) = Ok model ->
  anova_lm L model = inr tbl ->
  ~ In "C(Supermercado)" (map fst tbl) ->
  (exists e, snd (Anova_py.analisis_anova_completo L path) = Raised e)
  /\ (snd (Anova_py.plots L df) = Ok tt ->
      snd (Anova_py.analisis_anova_completo L path) = Raised KeyError)
  /\ called TukeyHSD (fst (Anova_py.analisis_anova_completo L path)) = false.
Proof.
  intros Hl Hc Ht Hno.
  assert (Hf : find (fun r : string * anova_row => String.eqb (fst r) "C(Supermercado)") tbl
               = None).
  { destruct (find _ tbl) as [r|] eqn:E; [|reflexivity].
    apply find_some in E. destruct E as [Hin He]. apply String.eqb_eq in He.
    elim Hno. rewrite <- He. now apply in_map. }
  assert (Hk : Anova_py.contrast L model =
               ([ EPrint "--- 4. TABLA ANOVA Y RESULTADO DEL CONTRASTE ---";
                  ECall AnovaLm; EPrintObj (OAnova tbl) ], Raise KeyError)).
  { unfold Anova_py.contrast, Anova_py.p_value_of, print, print_obj, call.
    rewrite Ht. cbn [lib]. rewrite !bind_emit, bind_ret_l, bind_emit. cbn [fst snd].
    rewrite Hf. reflexivity. }
  pose proof (never_tukey_check_assumptions L df) as N. unfold never in N.
  assert (N2 : never TukeyHSD (Anova_py.plots L df))
    by (apply never_plots; discriminate).
  unfold never in N2.
  destruct (plots_cases L df) as [Hp|[e Hp]].
  - rewrite (body_after_load L path df Hl), (analysis_after_checks L df model Hc Hp), Hk.
    cbn [bind fst snd run_function].
    split; [eexists; reflexivity|]. split; [reflexivity|].
    rewrite !called_cons, !called_app, N, N2. reflexivity.
  - rewrite (body_after_load L path df Hl).
    unfold Anova_py.analysis, print, printf. rewrite !bind_emit. cbn [fst snd].
    rewrite (bind_ok _ _ model Hc). cbn [fst snd].
    rewrite (bind_raise _ _ e Hp). cbn [fst snd run_function].
    split; [eexists; reflexivity|].
    split; [intros Hp'; rewrite Hp' in Hp; discriminate Hp|].
    rewrite !called_cons, !called_app, N, N2. reflexivity.
Qed.

(** A workbook without sheets: nothing can be concatenated.
    [analisis_anova_completo] reports the [ValueError] through its generic
    handler and returns; [analyze_sales_data] raises it after the banner of
    section 2. *)
Theorem empty_workbook (L : Libs) (path name : string) :
  ExcelFile L path = inr [] ->
  Anova_py.analisis_anova_completo L path =
    ([ EPrint "--- 0. CARGANDO Y PREPARANDO DATOS ---";
       EPrintF "Ocurrió un error inesperado al cargar los datos: {e}" [AExn ValueError] ],
     Returned)
  /\ Main_py.analyze_sales_data L path name =
    ([ EPrint "--- 1. Intervalos de Confianza Empíricos para 'Santa Ana' ---";
       EPrintF "La hoja '{santa_ana_sheet_name}' no se encontró en el archivo." [AStr name];
       EPrint "\n";
       EPrint "--- 2. Pruebas ANOVA para Comparar Ventas de Todas las Tiendas ---" ],
     Raised ValueError).
Proof.
  intros H. split.
  - unfold Anova_py.analisis_anova_completo, Anova_py.body, Anova_py.load.
    rewrite H. reflexivity.
  - unfold Main_py.analyze_sales_data, Main_py.body. rewrite H. reflexivity.
Qed.

Lemma anova_read_sheets_narrow (sheets sub : list (string * raw_frame)) :
  NoDup (map fst sheets) ->
  (forall s, In s sub -> In s sheets) ->
  (exists s, In s sub /\ (List.length (columns (snd s)) < 2)%nat) ->
  Anova_py.read_sheets (readable sheets) (map fst sub) = raise IndexError.
Proof.
  intros Hnd. induction sub as [|s sub IH]; intros H [b [Hb Hw]]; [contradiction|].
  simpl. unfold read_excel. rewrite (find_sheet sheets s Hnd (H s (or_introl eq_refl))).
  change (lib (inr (snd s))) with (ret (snd s)). rewrite bind_ret_l.
  unfold iloc_0_1.
  destruct (Nat.ltb_spec (List.length (columns (snd s))) 2) as [E|E]; [reflexivity|].
  cbv iota. rewrite bind_ret_l. unfold set_columns_Fecha_Ventas. cbn [columns rows].
  rewrite length_firstn, Nat.min_l by assumption. cbn [Nat.eqb]. cbv iota.
  rewrite bind_ret_l, IH; [reflexivity|intros; apply H; now right|].
  destruct Hb as [->|Hb]; [lia|]. now exists b.
Qed.

(** A sheet with fewer than two columns makes the column selection of
    [analisis_anova_completo] fail; the [IndexError] is reported through the
    generic handler and the function returns. *)
Theorem narrow_sheet_reported (L : Libs) (path : string) (sheets : list (string * raw_frame)) :
  ExcelFile L path = inr (readable sheets) ->
  NoDup (map fst sheets) ->
  (exists s, In s sheets /\ (List.length (columns (snd s)) < 2)%nat) ->
  Anova_py.analisis_anova_completo L path =
    ([ EPrint "--- 0. CARGANDO Y PREPARANDO DATOS ---";
       EPrintF "Ocurrió un error inesperado al cargar los datos: {e}" [AExn IndexError] ],
     Returned).
Proof.
  intros Hx Hnd Hbad.
  unfold Anova_py.analisis_anova_completo, Anova_py.body, Anova_py.load, print.
  rewrite Hx. change (lib (inr (readable sheets))) with (ret (readable sheets)).
  rewrite bind_emit, bind_ret_l, sheet_names_readable.
  rewrite anova_read_sheets_narrow by first [assumption | auto]. reflexivity.
Qed.

(** When the reference sheet exists but does not have exactly two columns,
    [analyze_sales_data] raises a [ValueError] right after the banner of
    section 1; sections 2 and 3 are not reached. *)
Theorem reference_sheet_width (L : Libs) (path name : string) (xls : workbook)
        (n : string) (f : raw_frame) :
  ExcelFile L path = inr xls ->
  find (fun s : string * (exn + raw_frame) => String.eqb (fst s) name) xls
    = Some (n, inr f) ->
  List.length (columns f) <> 2%nat ->
  Main_py.analyze_sales_data L path name =
    ([EPrint "--- 1. Intervalos de Confianza Empíricos para 'Santa Ana' ---"],
     Raised ValueError).
Proof.
  intros Hx Hf Hw.
  assert (Hin : existsb (String.eqb name) (sheet_names xls) = true).
  { apply find_some in Hf. destruct Hf as [Hin He]. simpl in He.
    apply existsb_exists. exists n. split.
    - unfold sheet_names. now apply (in_map fst) in Hin.
    - now rewrite String.eqb_sym. }
  unfold Main_py.analyze_sales_data, Main_py.body, Main_py.section_1, print.
  rewrite Hx. change (lib (inr xls)) with (ret xls). rewrite bind_ret_l.
  rewrite Hin. unfold read_excel. rewrite Hf.
  change (lib (inr f)) with (ret f). rewrite bind_ret_l.
  unfold set_columns_Fecha_Ventas.
  destruct (Nat.eqb_spec (List.length (columns f)) 2); [contradiction|]. reflexivity.
Qed.

Lemma anova_read_sheets_labels (xls : workbook) (names : list string)
      (t : list event) (frames : list (list sale)) :
  Anova_py.read_sheets xls names = (t, Ok frames) ->
  forall r, In r (List.concat frames) -> In (Supermercado r) names.
Proof.
  revert t frames. induction names as [|n names IH]; intros t frames H r Hr.
  - simpl in H. injection H as _ <-. contradiction.
  - simpl in H.
    destruct (read_excel xls n) as [t1 [f1| |e1]]; try discriminate.
    rewrite (bind_ok (t1, Ok f1) _ f1 eq_refl) in H. cbn [fst] in H.
    destruct (iloc_0_1 f1) as [t2 [f2| |e2]]; try discriminate.
    rewrite (bind_ok (t2, Ok f2) _ f2 eq_refl) in H. cbn [fst] in H.
    destruct (set_columns_Fecha_Ventas f2) as [t3 [f3| |e3]]; try discriminate.
    rewrite (bind_ok (t3, Ok f3) _ f3 eq_refl) in H. cbn [fst] in H.
    destruct (Anova_py.read_sheets xls names) as [t4 [fs| |e4]] eqn:E; try discriminate.
    rewrite (bind_ok (t4, Ok fs) _ fs eq_refl) in H. cbn [fst snd ret] in H.
    injection H as _ <-. simpl in Hr. apply in_app_or in Hr. destruct Hr as [Hr|Hr].
    + left. unfold set_Supermercado in Hr. apply in_map_iff in Hr.
      destruct Hr as [c [<- _]]. reflexivity.
    + right. now apply (IH t4 fs eq_refl).
Qed.

(** The table [analisis_anova_completo] loads has no missing sale, every
    store label is the name of a sheet, and there are at most as many stores
    as sheets. *)
Theorem loaded_table_clean (L : Libs) (path : string) (xls : workbook) (df : list sale) :
  ExcelFile L path = inr xls ->
  snd (Anova_py.load L path) = Ok df ->
  any_null_Ventas df = false
  /\ (forall r, In r df -> In (Supermercado r) (sheet_names xls))
  /\ (n_stores df <= List.length (sheet_names xls))%nat.
Proof.
  intros Hx H. unfold Anova_py.load, print in H. rewrite bind_emit, Hx in H.
  change (lib (inr xls)) with (ret xls) in H. rewrite bind_ret_l in H. cbn [snd] in H.
  destruct (Anova_py.read_sheets xls (sheet_names xls)) as [t [frames| |e]] eqn:E;
    try discriminate.
  rewrite (bind_ok (t, Ok frames) _ frames eq_refl) in H. cbn [fst snd] in H.
  destruct frames as [|f frames]; [discriminate|].
  change (concat (f :: frames)) with (ret (List.concat (f :: frames))) in H.
  rewrite bind_ret_l, bind_emit in H. cbn [snd ret] in H. injection H as <-.
  assert (Hlab : forall r, In r (dropna_Ventas (List.concat (f :: frames))) ->
                           In (Supermercado r) (sheet_names xls)).
  { intros r Hr. unfold dropna_Ventas in Hr. apply filter_In in Hr.
    now apply (anova_read_sheets_labels xls _ t (f :: frames) E). }
  split; [apply dropna_no_null|]. split; [exact Hlab|].
  unfold n_stores. apply NoDup_incl_length.
  - apply (proj1 (unique_distinct _)).
  - intros x Hx'. apply unique_subset in Hx'. apply in_map_iff in Hx'.
    destruct Hx' as [r [<- Hr]]. now apply Hlab.
Qed.

Lemma completes_bind {A B} (m : M A) (k : A -> M B) :
  completes m -> (forall a, completes (k a)) -> completes (bind m k).
Proof.
  intros [a Ha] Hk. destruct (Hk a) as [b Hb]. exists b.
  rewrite (bind_ok m k a Ha). exact Hb.
Qed.

Lemma completes_emit (e : event) : completes (emit e).
Proof. exists tt. reflexivity. Qed.

Lemma completes_ret {A} (a : A) : completes (ret a).
Proof. exists a. reflexivity. Qed.

Lemma completes_lib {A} (r : exn + A) : (exists a, r = inr a) -> completes (lib r).
Proof. intros [a ->]. exists a. reflexivity. Qed.

Ltac completes_tac :=
  unfold print, printf, print_obj, call;
  repeat first
    [ apply completes_bind; [|intros]
    | apply completes_emit
    | apply completes_ret
    | apply completes_lib; solve [auto]
    | match goal with
      | |- completes (if ?c then _ else _) => destruct c
      end ].

Lemma find_factor (tbl : anova_table) :
  In "C(Supermercado)" (map fst tbl) ->
  exists r, find (fun r : string * anova_row => String.eqb (fst r) "C(Supermercado)") tbl
            = Some r.
Proof.
  intros H. apply in_map_iff in H. destruct H as [r [Hr Hin]].
  destruct (find _ tbl) as [r'|] eqn:E; [now exists r'|].
  apply (find_none _ _ E) in Hin. rewrite Hr in Hin. discriminate.
Qed.

Lemma completes_contrast (L : Libs) (model : ols_model) (tbl : anova_table) :
  anova_lm L model = inr tbl ->
  In "C(Supermercado)" (map fst tbl) ->
  completes (Anova_py.contrast L model).
Proof.
  intros Ht Hin. destruct (find_factor tbl Hin) as [r Hr].
  unfold Anova_py.contrast, Anova_py.p_value_of, print, print_obj, call.
  do 2 (apply completes_bind; [apply completes_emit|intros _]).
  rewrite Ht. change (lib (inr tbl)) with (ret tbl). rewrite bind_ret_l.
  apply completes_bind; [apply completes_emit|intros _].
  rewrite Hr, bind_ret_l. completes_tac.
Qed.

(** [analisis_anova_completo] returns normally on every path as long as the
    statistical routines and the plotting calls return and the ANOVA table
    has the store factor: loading errors are handled, and nothing the
    function does itself raises. *)
Theorem runs_to_the_end (L : Libs) (path : string) :
  (forall s, exists r, levene L s = inr r) ->
  (forall d, exists m, ols_fit L d = inr m) ->
  (forall r, exists x, shapiro L r = inr x) ->
  (forall m, exists tbl, anova_lm L m = inr tbl /\ In "C(Supermercado)" (map fst tbl)) ->
  (forall d a, exists t, pairwise_tukeyhsd L d a = inr t) ->
  (forall c, exists u, pyplot L c = inr u) ->
  snd (Anova_py.analisis_anova_completo L path) = Returned.
Proof.
  intros Hlev Hols Hsh Han Htk Hplt.
  destruct (load_cases L path) as [[df E]|[e E]].
  - assert (Hl : snd (Anova_py.load L path) = Ok df) by now rewrite E.
    rewrite (body_after_load L path df Hl).
    assert (C : completes (Anova_py.analysis L df)).
    { unfold Anova_py.analysis.
      do 4 (apply completes_bind; [apply completes_emit|intros _]).
      apply completes_bind.
      { unfold Anova_py.check_assumptions. completes_tac. }
      intros model. apply completes_bind;
        [unfold Anova_py.plots; completes_tac|intros _].
      apply completes_bind.
      { destruct (Han model) as [tbl [Ht Hin]]. now apply completes_contrast with tbl. }
      intros b. unfold Anova_py.post_hoc. completes_tac. }
    destruct C as [[] C]. rewrite C. reflexivity.
  - unfold Anova_py.analisis_anova_completo, Anova_py.body. rewrite E.
    destruct e; reflexivity.
Qed.

Lemma before_desc_total (x y : string * num) :
  before_desc x y = true \/ before_desc y x = true.
Proof.
  unfold before_desc. destruct (snd x) as [a|], (snd y) as [b|]; auto.
  destruct (Qlt_le_dec a b) as [H|H].
  - right. apply Qle_bool_iff. lra.
  - left. now apply Qle_bool_iff.
Qed.

Lemma before_desc_trans (x y z : string * num) :
  before_desc x y = true -> before_desc y z = true -> before_desc x z = true.
Proof.
  unfold before_desc. destruct (snd x) as [a|], (snd y) as [b|], (snd z) as [c|];
    try discriminate; try reflexivity.
  rewrite !Qle_bool_iff. intros. lra.
Qed.

Lemma insert_desc_In (x y : string * num) (l : list (string * num)) :
  In y (insert_desc x l) <-> y = x \/ In y l.
Proof.
  induction l as [|z l IH]; simpl; [intuition|].
  destruct (before_desc x z); simpl; [intuition|]. rewrite IH. intuition.
Qed.

Lemma sort_values_desc_In (y : string * num) (l : list (string * num)) :
  In y (sort_values_desc l) <-> In y l.
Proof.
  induction l as [|x l IH]; simpl; [tauto|].
  rewrite insert_desc_In, IH. intuition.
Qed.

Lemma insert_desc_sorted (x : string * num) (l : list (string * num)) :
  StronglySorted (fun a b => before_desc a b = true) l ->
  StronglySorted (fun a b => before_desc a b = true) (insert_desc x l).
Proof.
  induction 1 as [|z l Hl IH Hz]; simpl; [repeat constructor|].
  destruct (before_desc x z) eqn:E.
  - constructor; [now constructor|]. constructor; [assumption|].
    rewrite Forall_forall in *. intros w Hw. eapply before_desc_trans; eauto.
  - constructor; [assumption|]. rewrite Forall_forall in *.
    intros w Hw. apply insert_desc_In in Hw. destruct Hw as [->|Hw]; [|auto].
    destruct (before_desc_total z x) as [H|H]; [assumption|congruence].
Qed.

Lemma sort_values_desc_sorted (l : list (string * num)) :
  StronglySorted (fun a b => before_desc a b = true) (sort_values_desc l).
Proof.
  induction l as [|x l IH]; simpl; [constructor|]. now apply insert_desc_sorted.
Qed.

Lemma before_desc_refl (x : string * num) : before_desc x x = true.
Proof. destruct (before_desc_total x x); assumption. Qed.

Lemma sorted_last (l : list (string * num)) (d x : string * num) :
  StronglySorted (fun a b => before_desc a b = true) l ->
  In x l -> before_desc x (last l d) = true.
Proof.
  induction 1 as [|z l Hl IH Hz]; [contradiction|].
  intros [->|Hin].
  - destruct l as [|w l]; [apply before_desc_refl|].
    rewrite Forall_forall in Hz. apply Hz.
    change (last (x :: w :: l) d) with (last (w :: l) d).
    destruct (exists_last (l := w :: l) ltac:(discriminate)) as [l' [a ->]].
    rewrite last_last. apply in_or_app. right. now left.
  - destruct l as [|w l]; [contradiction|].
    change (last (z :: w :: l) d) with (last (w :: l) d). now apply IH.
Qed.

(** The store section 3 takes as highest heads the sorted means and the one
    it takes as lowest ends them: both are stores of the table, every store
    with a mean has it at most the highest one, and at least the lowest one
    when that is a number (stores without a mean sort last). *)
Lemma sorted_means_extremes (ms : list (string * num))
        (highest : string * num) (others : list (string * num)) :
  sort_values_desc ms = highest :: others ->
  let lowest := last (sort_values_desc ms) highest in
  In highest ms /\ In lowest ms
  /\ forall g a, In (g, Some a) ms ->
       (exists h, snd highest = Some h /\ (a <= h)%Q)
       /\ (forall l, snd lowest = Some l -> (l <= a)%Q).
Proof.
  intros Hs lowest.
  pose proof (sort_values_desc_sorted ms) as Hsorted.
  assert (Hhi : In highest ms) by (apply sort_values_desc_In; rewrite Hs; now left).
  assert (Hlo : In lowest ms).
  { apply sort_values_desc_In. unfold lowest. rewrite Hs.
    destruct (exists_last (l := highest :: others) ltac:(discriminate)) as [l' [a E]].
    rewrite E, last_last. apply in_or_app. right. now left. }
  split; [assumption|]. split; [assumption|].
  intros g a Hin. apply sort_values_desc_In in Hin as Hin'. split.
  - rewrite Hs in Hsorted, Hin'. inversion Hsorted as [|? ? _ Hall]; subst.
    assert (B : before_desc highest (g, Some a) = true).
    { destruct Hin' as [<-|Hin']; [apply before_desc_refl|].
      rewrite Forall_forall in Hall. now apply Hall. }
    unfold before_desc in B. simpl in B. destruct (snd highest) as [h|]; [|discriminate].
    exists h. split; [reflexivity|]. now apply Qle_bool_iff.
  - intros l Hl.
    assert (B : before_desc (g, Some a) lowest = true)
      by (now apply sorted_last).
    unfold before_desc in B. simpl in B. rewrite Hl in B. now apply Qle_bool_iff.
Qed.

Lemma anova_table_input_clean_witness :
  exists t df,
    Main_py.combined_table Demo.ventas = (t, Ok df)
    /\ (2 <= n_stores df)%nat
    /\ any_null_Ventas df = false /\ df <> [].
Proof.
  do 2 eexists.
  assert (E : Main_py.combined_table Demo.ventas = _) by (vm_compute; reflexivity).
  split; [exact E|]. split; [vm_compute; lia|].
  apply (anova_table_input_clean Demo.ventas _ _ E). vm_compute; lia.
Defined.

Lemma figures_saved_once_witness :
  filter is_savefig
    (fst (Anova_py.analisis_anova_completo (Demo.libs NaN NaN) "ventas.xlsx")) =
    [ESaveFig "grafico_densidad_ventas.png"; ESaveFig "boxplot_ventas.png"].
Proof.
  eapply (proj2 (figures_saved_once (Demo.libs NaN NaN) "ventas.xlsx"));
    vm_compute; reflexivity.
Defined.

Lemma missing_factor_raises_witness :
  let D := Demo.libs NaN NaN in
  let L := {| ExcelFile := ExcelFile D; group_by_month := group_by_month D;
              np_sqrt := np_sqrt D; t_ppf := t_ppf D; levene := levene D;
              ols_fit := ols_fit D; shapiro := shapiro D;
              anova_lm := fun _ =>
                inr [("Residual",
                      {| sum_sq := NaN; df := NaN; F := NaN; PR_F := NaN |})];
              pairwise_tukeyhsd := pairwise_tukeyhsd D; pyplot := pyplot D |} in
  snd (Anova_py.analisis_anova_completo L "ventas.xlsx") = Raised KeyError
  /\ called TukeyHSD (fst (Anova_py.analisis_anova_completo L "ventas.xlsx")) = false.
Proof.
  intros D L.
  pose (df_all_sales :=
          match snd (Anova_py.load L "ventas.xlsx") with Ok d => d | _ => [] end).
  pose (model := {| model_data := df_all_sales; resid := [] |}).
  pose (tbl := [("Residual", {| sum_sq := NaN; df := NaN; F := NaN; PR_F := NaN |})]).
  assert (Hl : snd (Anova_py.load L "ventas.xlsx") = Ok df_all_sales)
    by (vm_compute; reflexivity).
  assert (Hc : snd (Anova_py.check_assumptions L df_all_sales) = Ok model)
    by (vm_compute; reflexivity).
  assert (Ht : anova_lm L model = inr tbl) by reflexivity.
  assert (Hno : ~ In "C(Supermercado)" (map fst tbl))
    by (simpl; intros [H|[]]; discriminate H).
  destruct (missing_factor_raises L "ventas.xlsx" df_all_sales model tbl Hl Hc Ht Hno)
    as [_ [HK HT]].
  split; [apply HK; vm_compute; reflexivity|exact HT].
Defined.

Lemma empty_workbook_witness :
  let D := Demo.libs NaN NaN in
  let L := {| ExcelFile := fun _ => inr []; group_by_month := group_by_month D;
              np_sqrt := np_sqrt D; t_ppf := t_ppf D; levene := levene D;
              ols_fit := ols_fit D; shapiro := shapiro D; anova_lm := anova_lm D;
              pairwise_tukeyhsd := pairwise_tukeyhsd D; pyplot := pyplot D |} in
  snd (Anova_py.analisis_anova_completo L "vacio.xlsx") = Returned
  /\ snd (Main_py.analyze_sales_data L "vacio.xlsx" "Santa Ana") = Raised ValueError.
Proof.
  intros D L.
  destruct (empty_workbook L "vacio.xlsx" "Santa Ana" eq_refl) as [H1 H2].
  rewrite H1, H2. split; reflexivity.
Defined.

Lemma narrow_sheet_reported_witness :
  Anova_py.analisis_anova_completo (Demo.libs NaN NaN) "sin_ventas.xlsx" =
    ([ EPrint "--- 0. CARGANDO Y PREPARANDO DATOS ---";
       EPrintF "Ocurrió un error inesperado al cargar los datos: {e}" [AExn IndexError] ],
     Returned).
Proof.
  apply (narrow_sheet_reported (Demo.libs NaN NaN) "sin_ventas.xlsx"
           [("Santa Ana",
             {| columns := ["Fecha"];
                rows := [ [Demo.day 2024 1 5]; [Demo.day 2024 1 20] ] |})]).
  - reflexivity.
  - simpl. repeat constructor. intros [].
  - eexists. split; [left; reflexivity|]. simpl. lia.
Defined.

Lemma reference_sheet_width_witness :
  Main_py.analyze_sales_data (Demo.libs NaN NaN) "sin_ventas.xlsx" "Santa Ana" =
    ([EPrint "--- 1. Intervalos de Confianza Empíricos para 'Santa Ana' ---"],
     Raised ValueError).
Proof.
  eapply (reference_sheet_width (Demo.libs NaN NaN) "sin_ventas.xlsx" "Santa Ana"
            Demo.sin_ventas).
  - reflexivity.
  - reflexivity.
  - simpl. discriminate.
Defined.

Lemma loaded_table_clean_witness :
  exists df,
    snd (Anova_py.load (Demo.libs NaN NaN) "ventas.xlsx") = Ok df
    /\ any_null_Ventas df = false
    /\ (forall r, In r df -> In (Supermercado r) (sheet_names Demo.ventas))
    /\ (n_stores df <= List.length (sheet_names Demo.ventas))%nat.
Proof.
  eexists.
  assert (E : snd (Anova_py.load (Demo.libs NaN NaN) "ventas.xlsx") = _)
    by (vm_compute; reflexivity).
  split; [exact E|].
  exact (loaded_table_clean (Demo.libs NaN NaN) "ventas.xlsx" Demo.ventas _ eq_refl E).
Defined.

Lemma runs_to_the_end_witness :
  let D := Demo.libs (Some (1 # 100)%Q) NaN in
  let L := {| ExcelFile := ExcelFile D; group_by_month := group_by_month D;
              np_sqrt := np_sqrt D; t_ppf := t_ppf D; levene := levene D;
              ols_fit := ols_fit D; shapiro := shapiro D;
              anova_lm := fun _ =>
                inr [("C(Supermercado)",
                      {| sum_sq := NaN; df := NaN; F := NaN;
                         PR_F := Some (1 # 100)%Q |})];
              pairwise_tukeyhsd := fun _ _ => inr [];
              pyplot := pyplot D |} in
  snd (Anova_py.analisis_anova_completo L "ventas.xlsx") = Returned.
Proof.
  intros D L. apply (runs_to_the_end L "ventas.xlsx").
  - intros s. eexists. reflexivity.
  - intros d. eexists. reflexivity.
  - intros r. eexists. reflexivity.
  - intros m. eexists. split; [reflexivity|]. left. reflexivity.
  - intros d a. eexists. reflexivity.
  - intros c. eexists. reflexivity.
Defined.

(* ------------------------------------------------------------------ *)
(** * The extreme stores of section 3 *)

Lemma In_bind_l {A B} (e : event) (m : M A) (k : A -> M B) :
  In e (fst m) -> In e (fst (bind m k)).
Proof.
  destruct m as [t [a| |x]]; simpl; intros H; try assumption.
  destruct (k a) as [t' r]; simpl. apply in_or_app. now left.
Qed.

Lemma In_bind_r {A B} (e : event) (m : M A) (k : A -> M B) (a : A) :
  snd m = Ok a -> In e (fst (k a)) -> In e (fst (bind m k)).
Proof.
  intros Hm H. rewrite (bind_ok m k a Hm). cbn [fst]. apply in_or_app. now right.
Qed.

Lemma called_bind_r {A B} (f : libcall) (m : M A) (k : A -> M B) (a : A) :
  snd m = Ok a -> called f (fst (k a)) = true -> called f (fst (bind m k)) = true.
Proof.
  intros Hm H. rewrite (bind_ok m k a Hm). cbn [fst].
  rewrite called_app, H. apply orb_true_r.
Qed.

Lemma insert_label_In (x y : string) (l : list string) :
  In y (insert_label x l) <-> y = x \/ In y l.
Proof.
  induction l as [|z l IH]; simpl; [intuition|].
  destruct (String.leb x z); simpl; [intuition|]. rewrite IH. intuition.
Qed.

Lemma sort_labels_In (y : string) (l : list string) :
  In y (sort_labels l) <-> In y l.
Proof.
  unfold sort_labels. induction l as [|x l IH]; simpl; [tauto|].
  rewrite insert_label_In, IH. intuition.
Qed.

(** Every entry of the series of means is a store of the table with the
    mean of its numeric sales. *)
Lemma group_means_spec (df : list sale) (ms : list (string * num)) :
  group_means (groupby_Supermercado df) = inr ms ->
  forall g m, In (g, m) ms ->
    In g (map Supermercado df)
    /\ exists vs,
        numeric (map Ventas (filter (fun r => String.eqb (Supermercado r) g) df)) = inr vs
        /\ m = mean vs.
Proof.
  unfold groupby_Supermercado.
  assert (G : forall labels ms,
             group_means
               (map (fun g => (g, map Ventas
                                    (filter (fun r => String.eqb (Supermercado r) g) df)))
                    labels) = inr ms ->
             forall g m, In (g, m) ms ->
               In g labels
               /\ exists vs,
                   numeric (map Ventas
                              (filter (fun r => String.eqb (Supermercado r) g) df)) = inr vs
                   /\ m = mean vs).
  { induction labels as [|l labels IH]; simpl; intros ms' H g m Hin.
    - injection H as <-. contradiction.
    - destruct (numeric _) as [e|vs] eqn:En;
        [destruct (group_means _); discriminate|].
      destruct (group_means _) as [e|ms''] eqn:Eg; [discriminate|].
      injection H as <-. destruct Hin as [Hin|Hin].
      + injection Hin as <- <-. split; [now left|]. now exists vs.
      + destruct (IH ms'' eq_refl g m Hin) as [H1 H2]. split; [now right|assumption]. }
  intros H g m Hin. destruct (G _ _ H g m Hin) as [H1 H2]. split; [|assumption].
  apply (proj1 (sort_labels_In _ _)) in H1. now apply unique_subset in H1.
Qed.

(** The opening of section 3 on a table that is not empty: its banner, the
    sorted series of means and the two extreme stores. *)
Lemma section_3_report (L : Libs) (df_all_sales : list sale) (p_value_anova : num)
      (ms : list (string * num)) :
  df_all_sales <> [] ->
  group_means (groupby_Supermercado df_all_sales) = inr ms ->
  exists highest others t r,
    sort_values_desc ms = highest :: others
    /\ Main_py.section_3 L df_all_sales p_value_anova =
         (EPrint "--- 3. Comparación de la Tienda con Mayor y Menor Promedio de Ventas ---"
            :: EPrint "Promedio de ventas por supermercado:"
            :: EPrintObj (OSeries (sort_values_desc ms))
            :: EPrintF "\nTienda con mayor promedio de ventas: '{supermarket_highest_sales}' (${avg_sales_by_supermarket.iloc[0]:,.2f})"
                       [AStr (fst highest); ANum (snd highest)]
            :: EPrintF "Tienda con menor promedio de ventas: '{supermarket_lowest_sales}' (${avg_sales_by_supermarket.iloc[-1]:,.2f})"
                       [AStr (fst (last (sort_values_desc ms) highest));
                        ANum (snd (last (sort_values_desc ms) highest))]
            :: t, r).
Proof.
  intros Hdf Hms.
  destruct (highest_exists df_all_sales ms Hdf Hms) as [highest [others Hs]].
  exists highest, others.
  unfold Main_py.section_3, print, printf, print_obj.
  destruct df_all_sales as [|r0 df0]; [contradiction|]. cbn [empty negb].
  rewrite Hms. change (lib (inr ms)) with (ret ms). rewrite bind_ret_l.
  cbv beta zeta. rewrite Hs.
  rewrite !bind_emit. cbn [fst snd].
  match goal with
  | |- context [if ?c then ?x else ?y] => destruct (if c then x else y) as [t2 r2]
  end.
  cbn [fst snd bind].
  destruct r2 as [[]| |e]; cbn [fst snd app emit]; do 2 eexists;
    (split; [reflexivity|reflexivity]).
Qed.

(** X16: on a table that is not empty, the store section 3 prints as the one
    with the highest mean and the one it prints as lowest are stores of the
    table, each printed with its own mean of the sales of its rows; every
    store whose mean is a number has it at most the printed highest mean, and
    at least the printed lowest mean when that is a number. *)
Theorem extremes_are_extreme (L : Libs) (df_all_sales : list sale) (p_value_anova : num)
        (ms : list (string * num)) :
  df_all_sales <> [] ->
  group_means (groupby_Supermercado df_all_sales) = inr ms ->
  exists highest lowest : string * num,
    In (EPrintF "\nTienda con mayor promedio de ventas: '{supermarket_highest_sales}' (${avg_sales_by_supermarket.iloc[0]:,.2f})"
                [AStr (fst highest); ANum (snd highest)])
       (fst (Main_py.section_3 L df_all_sales p_value_anova))
    /\ In (EPrintF "Tienda con menor promedio de ventas: '{supermarket_lowest_sales}' (${avg_sales_by_supermarket.iloc[-1]:,.2f})"
                   [AStr (fst lowest); ANum (snd lowest)])
          (fst (Main_py.section_3 L df_all_sales p_value_anova))
    /\ In highest ms /\ In lowest ms
    /\ In (fst highest) (map Supermercado df_all_sales)
    /\ In (fst lowest) (map Supermercado df_all_sales)
    /\ (forall g m, In (g, m) ms ->
          In g (map Supermercado df_all_sales)
          /\ exists vs,
              numeric (map Ventas (filter (fun r => String.eqb (Supermercado r) g)
                                          df_all_sales)) = inr vs
              /\ m = mean vs)
    /\ (forall g a, In (g, Some a) ms ->
          (exists h, snd highest = Some h /\ (a <= h)%Q)
          /\ (forall l, snd lowest = Some l -> (l <= a)%Q)).
Proof.
  intros Hdf Hms.
  destruct (section_3_report L df_all_sales p_value_anova ms Hdf Hms)
    as [highest [others [t [r [Hs T]]]]].
  destruct (sorted_means_extremes ms highest others Hs) as [Hhi [Hlo Hb]].
  exists highest, (last (sort_values_desc ms) highest).
  cbv zeta in Hlo, Hb. rewrite T. cbn [fst].
  set (lowest := last (sort_values_desc ms) highest) in *.
  split; [auto 10 using in_eq, in_cons|]. split; [auto 10 using in_eq, in_cons|].
  split; [assumption|]. split; [assumption|].
  destruct highest as [gh mh]. destruct lowest as [gl ml].
  split; [apply (group_means_spec _ _ Hms gh mh Hhi)|].
  split; [apply (group_means_spec _ _ Hms gl ml Hlo)|].
  split; [apply (group_means_spec _ _ Hms)|]. exact Hb.
Qed.

Lemma extremes_are_extreme_witness :
  let L := Demo.libs (Some (1 # 100)%Q) (Some (2 # 100)%Q) in
  let df := dropna_Ventas
              (set_Supermercado "Santa Ana" [(CNull, CNum 90); (CNull, CNum 106)]
               ++ set_Supermercado "Sur" [(CNull, CNum 300)]
               ++ set_Supermercado "Centro" [(CNull, CNum 210); (CNull, CNull)]) in
  let ms := [("Centro", Some (210 # 1)%Q); ("Santa Ana", Some (196 # 2)%Q);
             ("Sur", Some (300 # 1)%Q)] in
  df <> []
  /\ group_means (groupby_Supermercado df) = inr ms
  /\ exists highest lowest : string * num,
      In (EPrintF "\nTienda con mayor promedio de ventas: '{supermarket_highest_sales}' (${avg_sales_by_supermarket.iloc[0]:,.2f})"
                  [AStr (fst highest); ANum (snd highest)])
         (fst (Main_py.section_3 L df (Some (1 # 100)%Q)))
      /\ In (EPrintF "Tienda con menor promedio de ventas: '{supermarket_lowest_sales}' (${avg_sales_by_supermarket.iloc[-1]:,.2f})"
                     [AStr (fst lowest); ANum (snd lowest)])
            (fst (Main_py.section_3 L df (Some (1 # 100)%Q)))
      /\ In highest ms /\ In lowest ms
      /\ In (fst highest) (map Supermercado df)
      /\ In (fst lowest) (map Supermercado df)
      /\ (forall g m, In (g, m) ms ->
            In g (map Supermercado df)
            /\ exists vs,
                numeric (map Ventas (filter (fun r => String.eqb (Supermercado r) g) df))
                = inr vs
                /\ m = mean vs)
      /\ (forall g a, In (g, Some a) ms ->
            (exists h, snd highest = Some h /\ (a <= h)%Q)
            /\ (forall l, snd lowest = Some l -> (l <= a)%Q)).
Proof.
  intros L df ms.
  assert (Hdf : df <> []) by (vm_compute; discriminate).
  assert (Hms : group_means (groupby_Supermercado df) = inr ms)
    by (vm_compute; reflexivity).
  split; [exact Hdf|]. split; [exact Hms|].
  exact (extremes_are_extreme L df (Some (1 # 100)%Q) ms Hdf Hms).
Defined.

(* ------------------------------------------------------------------ *)
(** * The reference sheet *)






